(** * react-native-wifi-reborn: connection orchestration, verified

  A shallow embedding of the iOS native module ([WifiManager], Swift) and of
  the JavaScript wrapper ([index.ts], in its two revisions) together with
  the properties the specification states about them.

  Modelling conventions.
  - A Swift [String] / JS [string] is a [string] of 8-bit characters;
    [lowercased()] and [toLowerCase()] act on the ASCII letters.
  - A Swift [Int] is a [Z].  The only arithmetic is [currentRetry + 1],
    taken while [currentRetry < maxRetries], so it never leaves the range
    of [maxRetries] and no trap is modelled.
  - A [TimeInterval] is counted in milliseconds ([0.5] is [500]).
  - The operating system is an oracle: the n-th completion of
    [fetchCurrentSSID] and the answer of [apply] are fields of the
    environment; every call on the platform is appended to a trace.
  - [print] / [console.log] / [console.warn] have no effect on the model.
  - The promise blocks captured [weak self]; the module object is retained
    by the bridge for the life of the process, so [self] is present. *)

From Stdlib Require Import ZArith Lia Bool List String Ascii.
From Equations Require Import Equations.
Import ListNotations.
Open Scope string_scope.
Open Scope Z_scope.

(** ** Strings *)

Module Str.

Definition is_upper (c : ascii) : bool :=
  let n := nat_of_ascii c in (Nat.leb 65 n && Nat.leb n 90)%bool.

Definition lower_ascii (c : ascii) : ascii :=
  if is_upper c then ascii_of_nat (nat_of_ascii c + 32) else c.

(** [lowercased()] in Swift, [toLowerCase()] in JS. *)
Fixpoint lowercased (s : string) : string :=
  match s with
  | EmptyString => EmptyString
  | String c s' => String (lower_ascii c) (lowercased s')
  end.

(** [s.hasPrefix(p)] in Swift: true for the empty prefix. *)
Definition hasPrefix (s p : string) : bool := String.prefix p s.

(** [s.includes(sub)] in JS: [sub] occurs at some position of [s]. *)
Fixpoint includes (s sub : string) : bool :=
  if String.prefix sub s then true
  else match s with
       | EmptyString => false
       | String _ s' => includes s' sub
       end.

(** [s.isEmpty]. *)
Definition isEmpty (s : string) : bool :=
  match s with EmptyString => true | _ => false end.

(** Equality of a [String?] with a [String] (Swift [==] after promotion),
    and of a nullable JS string with a string ([===]). *)
Definition opt_eqb (o : option string) (s : string) : bool :=
  match o with
  | Some t => String.eqb t s
  | None => false
  end.

(** [a ?? b]. *)
Definition orElse {A} (o : option A) (d : A) : A :=
  match o with Some a => a | None => d end.

(** What the specification calls a prefix match: compared without case,
    [s] starts with [p]. *)
Definition starts_with_ci (s p : string) : Prop :=
  exists rest, lowercased s = lowercased p ++ rest.


End Str.

(** ** The native module (Swift) *)

Module Native.

(** [enum WifiError: String]. *)
Inductive WifiError :=
| unavailableForOSVersion
| invalid
| invalidSSID
| invalidSSIDPrefix
| invalidPassphrase
| userDenied
| unableToConnect
| locationPermissionDenied
| locationPermissionRestricted
| didNotFindNetwork
| couldNotDetectSSID
| timeout.

Definition rawValue (e : WifiError) : string :=
  match e with
  | unavailableForOSVersion => "unavailableForOSVersion"
  | invalid => "invalid"
  | invalidSSID => "invalidSSID"
  | invalidSSIDPrefix => "invalidSSIDPrefix"
  | invalidPassphrase => "invalidPassphrase"
  | userDenied => "userDenied"
  | unableToConnect => "unableToConnect"
  | locationPermissionDenied => "locationPermissionDenied"
  | locationPermissionRestricted => "locationPermissionRestricted"
  | didNotFindNetwork => "didNotFindNetwork"
  | couldNotDetectSSID => "couldNotDetectSSID"
  | timeout => "timeoutOccurred"
  end.

(** The raw values of [NEHotspotConfigurationError] that the module
    compares against.  They belong to the NetworkExtension framework, not
    to this repository, so the module is verified for any assignment. *)
Record HotspotCodes := {
  code_invalid : Z;
  code_invalidSSID : Z;
  code_invalidSSIDPrefix : Z;
  code_invalidWPAPassphrase : Z;
  code_invalidWEPPassphrase : Z;
  code_userDenied : Z;
  code_alreadyAssociated : Z
}.

(** The assignment of the NetworkExtension headers (NEHotspotConfigurationError). *)
Definition appleCodes : HotspotCodes := {|
  code_invalid := 0;
  code_invalidSSID := 1;
  code_invalidWPAPassphrase := 2;
  code_invalidWEPPassphrase := 3;
  code_userDenied := 7;
  code_alreadyAssociated := 13;
  code_invalidSSIDPrefix := 15
|}.

Record NSError := {
  code : Z;
  localizedDescription : string
}.

(** [parseError]: a Swift [switch] takes the first case that matches. *)
Definition parseError (K : HotspotCodes) (error : NSError) : string :=
  let c := code error in
  if c =? code_invalid K then rawValue invalid
  else if c =? code_invalidSSID K then rawValue invalidSSID
  else if c =? code_invalidSSIDPrefix K then rawValue invalidSSIDPrefix
  else if (c =? code_invalidWPAPassphrase K) || (c =? code_invalidWEPPassphrase K)
       then rawValue invalidPassphrase
  else if c =? code_userDenied K then rawValue userDenied
  else rawValue unableToConnect.

(** The codes [parseError] names in a [case]. *)
Definition recognized (K : HotspotCodes) (c : Z) : Prop :=
  c = code_invalid K \/ c = code_invalidSSID K \/ c = code_invalidSSIDPrefix K \/
  c = code_invalidWPAPassphrase K \/ c = code_invalidWEPPassphrase K \/
  c = code_userDenied K.

(** *** Hotspot configurations *)

Inductive Target :=
| ForSSID (ssid : string)
| ForSSIDPrefix (ssidPrefix : string).

(** An [NEHotspotConfiguration]: the initialiser used fixes the target and
    the credentials; [joinOnce] is a property set afterwards. *)
Record NEHotspotConfiguration := {
  target : Target;
  credentials : option (string * bool);   (* passphrase, isWEP *)
  joinOnce : bool
}.

Definition init_ssid (ssid : string) : NEHotspotConfiguration :=
  {| target := ForSSID ssid; credentials := None; joinOnce := false |}.
Definition init_ssid_passphrase (ssid passphrase : string) (isWEP : bool) :=
  {| target := ForSSID ssid; credentials := Some (passphrase, isWEP); joinOnce := false |}.
Definition init_ssidPrefix (ssidPrefix : string) : NEHotspotConfiguration :=
  {| target := ForSSIDPrefix ssidPrefix; credentials := None; joinOnce := false |}.
Definition init_ssidPrefix_passphrase (ssidPrefix passphrase : string) (isWEP : bool) :=
  {| target := ForSSIDPrefix ssidPrefix; credentials := Some (passphrase, isWEP); joinOnce := false |}.
Definition set_joinOnce (b : bool) (c : NEHotspotConfiguration) :=
  {| target := target c; credentials := credentials c; joinOnce := b |}.

Inductive Cipher := CipherNone | WPA | WEP.

Definition secretCipher (c : NEHotspotConfiguration) : Cipher :=
  match credentials c with
  | None => CipherNone
  | Some (_, true) => WEP
  | Some (_, false) => WPA
  end.

(** *** The platform and the trace of calls on it *)

Record Platform := {
  iosVersion : nat;                                   (* major version *)
  ssidAt : nat -> option string;                      (* n-th fetchCurrentSSID *)
  applyOutcome : NEHotspotConfiguration -> option NSError;
  codes : HotspotCodes
}.

Inductive Event :=
| EvFetch (seen : option string)
| EvApply (config : NEHotspotConfiguration)
| EvAsyncAfter (interval : Z)
| EvRemove (ssid : string).

Record World := {
  fetches : nat;          (* completions of fetchCurrentSSID so far *)
  trace : list Event      (* oldest first *)
}.

Definition world0 : World := {| fetches := 0; trace := [] |}.

Definition emit (e : Event) (w : World) : World :=
  {| fetches := fetches w; trace := trace w ++ [e] |}.

(** How the promise of a call is settled. *)
Inductive Settled :=
| Resolved
| Rejected (code message : string).

(** [fetchCurrentSSID]: both branches ([NEHotspotNetwork.fetchCurrent] and
    the CaptiveNetwork loop) hand one [String?] to the completion. *)
Definition fetchCurrentSSID (P : Platform) (w : World) : option string * World :=
  let seen := ssidAt P (fetches w) in
  (seen, {| fetches := S (fetches w); trace := trace w ++ [EvFetch seen] |}).

(** The [isConnected] decision of one verification tick. *)
Definition isConnected (expectedSSID : option string) (isPrefix : bool)
           (ssidPrefix : option string) (currentSSID : option string) : bool :=
  match isPrefix, ssidPrefix with
  | true, Some prefix =>
      Str.orElse
        (option_map (fun s => Str.hasPrefix (Str.lowercased s) (Str.lowercased prefix))
                    currentSSID)
        false
  | _, _ =>
      match expectedSSID with
      | Some expected => Str.opt_eqb currentSSID expected
      | None => match currentSSID with Some _ => true | None => false end
      end
  end.

Definition timeoutMessage (expectedSSID ssidPrefix : option string) : string :=
  "Unable to connect to " ++ Str.orElse expectedSSID (Str.orElse ssidPrefix "network").

(** [verifyConnection]: fetch, decide, give up when [currentRetry >=
    maxRetries], otherwise wait [interval] and try again with
    [currentRetry + 1]. *)
Equations? verifyConnection (P : Platform) (expectedSSID : option string)
           (isPrefix : bool) (ssidPrefix : option string)
           (maxRetries interval currentRetry : Z) (w : World)
  : Settled * World by wf (Z.to_nat (maxRetries - currentRetry)) lt :=
  verifyConnection P expectedSSID isPrefix ssidPrefix maxRetries interval currentRetry w :=
    let currentSSID := fst (fetchCurrentSSID P w) in
    let w1 := snd (fetchCurrentSSID P w) in
    if isConnected expectedSSID isPrefix ssidPrefix currentSSID then (Resolved, w1)
    else
      match Z_ge_lt_dec currentRetry maxRetries with
      | left _ =>
          (Rejected (rawValue unableToConnect)
                    (timeoutMessage expectedSSID ssidPrefix), w1)
      | right _ =>
          verifyConnection P expectedSSID isPrefix ssidPrefix maxRetries interval
                           (currentRetry + 1) (emit (EvAsyncAfter interval) w1)
      end.
Proof. lia. Qed.

(** [applyConfiguration]: hand the configuration to the system; an error
    whose code is [alreadyAssociated] settles the promise with success, any
    other error rejects with the parsed code, and acceptance starts the
    verification with [maxRetries: 20, interval: 0.5]. *)
Definition applyConfiguration (P : Platform) (config : NEHotspotConfiguration)
           (expectedSSID : option string) (isPrefix : bool)
           (ssidPrefix : option string) (w : World) : Settled * World :=
  let w1 := emit (EvApply config) w in
  match applyOutcome P config with
  | Some error =>
      let errorCode := parseError (codes P) error in
      if code error =? code_alreadyAssociated (codes P) then (Resolved, w1)
      else (Rejected errorCode (localizedDescription error), w1)
  | None =>
      verifyConnection P expectedSSID isPrefix ssidPrefix 20 500 0 w1
  end.

(** The availability guard: the running system is iOS [n] or later. *)
Definition available (P : Platform) (n : nat) : bool := Nat.leb n (iosVersion P).

(** The [let config] block of [connectToProtectedSSIDOnce]. *)
Definition configForSSID (ssid passphrase : string) (isWEP joinOnce : bool)
  : NEHotspotConfiguration :=
  set_joinOnce joinOnce
    (if Str.isEmpty passphrase then init_ssid ssid
     else init_ssid_passphrase ssid passphrase isWEP).

(** The [let config] block of [connectToProtectedSSIDPrefixOnce]. *)
Definition configForSSIDPrefix (ssidPrefix passphrase : string) (isWEP joinOnce : bool)
  : NEHotspotConfiguration :=
  set_joinOnce joinOnce
    (if Str.isEmpty passphrase then init_ssidPrefix ssidPrefix
     else init_ssidPrefix_passphrase ssidPrefix passphrase isWEP).

Definition connectToProtectedSSIDOnce (P : Platform) (ssid passphrase : string)
           (isWEP joinOnce : bool) (w : World) : Settled * World :=
  if negb (available P 11) then
    (Rejected (rawValue unavailableForOSVersion) "Requires iOS 11+", w)
  else
    let (currentSSID, w1) := fetchCurrentSSID P w in
    if Str.opt_eqb currentSSID ssid then (Resolved, w1)
    else
      let config := configForSSID ssid passphrase isWEP joinOnce in
      applyConfiguration P config (Some ssid) false None w1.

Definition connectToProtectedSSID (P : Platform) (ssid passphrase : string)
           (isWEP isHidden : bool) (w : World) : Settled * World :=
  connectToProtectedSSIDOnce P ssid passphrase isWEP false w.

Definition connectToSSID (P : Platform) (ssid : string) (w : World) : Settled * World :=
  connectToProtectedSSID P ssid "" false false w.

Definition connectToSSIDPrefix (P : Platform) (ssidPrefix : string) (w : World)
  : Settled * World :=
  if negb (available P 13) then
    (Rejected (rawValue unavailableForOSVersion) "Requires iOS 13+", w)
  else
    let config := set_joinOnce false (init_ssidPrefix ssidPrefix) in
    applyConfiguration P config None true (Some ssidPrefix) w.

Definition connectToProtectedSSIDPrefixOnce (P : Platform) (ssidPrefix passphrase : string)
           (isWEP joinOnce : bool) (w : World) : Settled * World :=
  if negb (available P 13) then
    (Rejected (rawValue unavailableForOSVersion) "Requires iOS 13+", w)
  else
    let config := configForSSIDPrefix ssidPrefix passphrase isWEP joinOnce in
    applyConfiguration P config None true (Some ssidPrefix) w.

Definition connectToProtectedSSIDPrefix (P : Platform) (ssidPrefix passphrase : string)
           (isWEP : bool) (w : World) : Settled * World :=
  connectToProtectedSSIDPrefixOnce P ssidPrefix passphrase isWEP false w.

(** The [params] dictionary of [connectToProtectedWifiSSID], read with
    [as? String] / [as? Bool]: a key that is missing or of another type is
    [None]. *)
Record Params := {
  param_ssid : option string;
  param_password : option string;
  param_isWEP : option bool
}.

Definition connectToProtectedWifiSSID (P : Platform) (params : Params) (w : World)
  : Settled * World :=
  match param_ssid params with
  | None => (Rejected (rawValue invalidSSID) "SSID is required", w)
  | Some ssid =>
      let password := Str.orElse (param_password params) "" in
      let isWEP := Str.orElse (param_isWEP params) false in
      connectToProtectedSSIDOnce P ssid password isWEP false w
  end.

Definition disconnectFromSSID (P : Platform) (ssid : string) (w : World)
  : Settled * World :=
  if negb (available P 11) then
    (Rejected (rawValue unavailableForOSVersion) "Requires iOS 11+", w)
  else (Resolved, emit (EvRemove ssid) w).

(** *** Reading a trace *)

Definition isFetch (e : Event) : bool :=
  match e with EvFetch _ => true | _ => false end.

Definition isApply (e : Event) : bool :=
  match e with EvApply _ => true | _ => false end.

(** Number of identity fetches in a run of events. *)
Definition ticks (es : list Event) : nat := List.length (List.filter isFetch es).

(** Number of identity fetches that follow the first [apply]: the ticks of
    the verification poller. *)
Fixpoint ticksAfterApply (es : list Event) : nat :=
  match es with
  | [] => 0%nat
  | EvApply _ :: rest => ticks rest
  | _ :: rest => ticksAfterApply rest
  end.

(** Whether [apply] was called at all. *)
Definition applied (es : list Event) : bool := List.existsb isApply es.

(** The configurations handed to [apply], in order. *)
Fixpoint appliedConfigs (es : list Event) : list NEHotspotConfiguration :=
  match es with
  | [] => []
  | EvApply config :: rest => config :: appliedConfigs rest
  | _ :: rest => appliedConfigs rest
  end.

(** An open-network configuration: no credentials, cipher none. *)
Definition isOpen (config : NEHotspotConfiguration) : bool :=
  match secretCipher config with
  | CipherNone => true
  | _ => false
  end.

End Native.

(** ** The JavaScript wrapper (index.ts) *)

(** What both revisions of [index.ts] share: the bridge to the native
    module, the module-level flag [isIoTNetworkBound], and [async]/[await]
    with [try]/[catch] as a state-and-exception monad. *)
Module Js.

(** [Platform.OS]; the wrapper only asks whether it is ["android"]. *)
Inductive PlatformOS := android | ios | otherOS.

Definition isAndroid (os : PlatformOS) : bool :=
  match os with android => true | _ => false end.

(** The object literal handed to [connectToProtectedWifiSSID]. *)
Record ConnectOptions := {
  opt_ssid : string;
  opt_password : option string;
  opt_isHidden : bool;
  opt_timeout : Z;
  opt_usePrefix : option bool      (* absent in the older revision *)
}.

(** The methods of [NativeWifiManager] the IoT helpers call. *)
Inductive NativeCall :=
| isRemoveWifiNetwork (ssid : string)
| connectToProtectedWifiSSID (options : ConnectOptions)
| connectToSSIDPrefix (ssidPrefix : string)
| connectToProtectedSSIDPrefix (ssidPrefix password : string) (isWEP : bool)
| connectToProtectedSSID (ssid : string) (password : option string) (isWEP isHidden : bool)
| connectToProtectedSSIDPrefixOnce (ssidPrefix : string) (password : option string)
                                   (isWEP joinOnce : bool)
| connectToProtectedSSIDOnce (ssid : string) (password : option string)
                             (isWEP joinOnce : bool)
| forceWifiUsageWithOptions (useWifi noInternet : bool)
| getCurrentWifiSSID
| disconnect
| disconnectFromSSID (ssid : string).

(** How the promise of a native call settles.  The payload matters for
    [getCurrentWifiSSID] only; [None] is [null]. *)
Inductive Answer :=
| Fulfil (value : option string)
| Reject (reason : string).

Record Bridge := {
  OS : PlatformOS;
  answer : nat -> NativeCall -> Answer     (* the n-th call on the bridge *)
}.

Record State := {
  isIoTNetworkBound : bool;
  calls : list NativeCall                  (* oldest first *)
}.

Definition state0 : State := {| isIoTNetworkBound := false; calls := [] |}.

(** What a [throw] or a rejected [await] carries. *)
Inductive Thrown :=
| NativeRejection (reason : string)
| JsError (message : string).

Inductive Completion (A : Type) :=
| Normal (a : A)
| Throw (t : Thrown).
Arguments Normal {A} a.
Arguments Throw {A} t.

Definition M (A : Type) : Type := State -> Completion A * State.

Definition ret {A} (a : A) : M A := fun s => (Normal a, s).

Definition bind {A B} (m : M A) (k : A -> M B) : M B :=
  fun s => match m s with
           | (Normal a, s1) => k a s1
           | (Throw t, s1) => (Throw t, s1)
           end.

Definition throw {A} (t : Thrown) : M A := fun s => (Throw t, s).

(** [try { body } catch (e) { handler }]. *)
Definition tryCatch (body : M unit) (handler : Thrown -> M unit) : M unit :=
  fun s => match body s with
           | (Normal a, s1) => (Normal a, s1)
           | (Throw t, s1) => handler t s1
           end.

(** [await NativeWifiManager.<call>]. *)
Definition await (B : Bridge) (c : NativeCall) : M (option string) :=
  fun s =>
    let s1 := {| isIoTNetworkBound := isIoTNetworkBound s; calls := calls s ++ [c] |} in
    match answer B (List.length (calls s)) c with
    | Fulfil v => (Normal v, s1)
    | Reject r => (Throw (NativeRejection r), s1)
    end.

Definition getBound : M bool := fun s => (Normal (isIoTNetworkBound s), s).

Definition setBound (b : bool) : M unit :=
  fun s => (Normal tt, {| isIoTNetworkBound := b; calls := calls s |}).

Definition skip : M unit := ret tt.

Declare Scope js_scope.
Delimit Scope js_scope with js.
Notation "x <- m ;; k" := (bind m (fun x => k))
  (at level 61, m at next level, right associativity) : js_scope.
Notation "m ;; k" := (bind m (fun _ => k))
  (at level 61, right associativity) : js_scope.

(** [password || null]: the empty string is falsy. *)
Definition orNull (password : string) : option string :=
  if Str.isEmpty password then None else Some password.

(** Truthiness of a string. *)
Definition truthy (s : string) : bool := negb (Str.isEmpty s).

(** The [options] argument of [connectToIoTNetwork]. *)
Record IoTOptions := {
  usePrefix : option bool;
  timeout : option Z
}.

(** The [connected] value of both revisions, read as a condition:
    [usePrefix ? currentSSID?.toLowerCase().includes(ssid.toLowerCase())
               : currentSSID === ssid]. *)
Definition connected (usePrefix : bool) (ssid : string) (currentSSID : option string) : bool :=
  if usePrefix then
    match currentSSID with
    | Some cur => Str.includes (Str.lowercased cur) (Str.lowercased ssid)
    | None => false
    end
  else Str.opt_eqb currentSSID ssid.

Definition failureMessage (ssid : string) (currentSSID : option string) : string :=
  "Failed to connect to IoT network. Expected: " ++ ssid ++ ", Got: "
    ++ Str.orElse currentSSID "null".

End Js.

(** *** src/index.ts, older revision *)
Module IndexTs.
Import Js.
Local Open Scope js_scope.

Definition connectToIoTNetwork (B : Bridge) (ssid : string) (password : option string)
           (options : IoTOptions) : M unit :=
  let password := Str.orElse password "" in
  let usePrefix := Str.orElse (usePrefix options) false in
  let timeout := Str.orElse (timeout options) 30 in
  (if isAndroid (OS B) then
     tryCatch (await B (isRemoveWifiNetwork ssid) ;; skip) (fun _ => skip) ;;
     await B (connectToProtectedWifiSSID
                {| opt_ssid := ssid; opt_password := orNull password;
                   opt_isHidden := false; opt_timeout := timeout;
                   opt_usePrefix := None |}) ;; skip
   else if usePrefix then
     if truthy password then
       await B (connectToProtectedSSIDPrefix ssid password false) ;; skip
     else await B (connectToSSIDPrefix ssid) ;; skip
   else await B (connectToProtectedSSID ssid (orNull password) false false) ;; skip) ;;
  (if isAndroid (OS B) then
     tryCatch (await B (forceWifiUsageWithOptions true true) ;; setBound true)
              (fun _ => skip)
   else skip) ;;
  currentSSID <- await B getCurrentWifiSSID ;;
  if negb (connected usePrefix ssid currentSSID) then
    bound <- getBound ;;
    (if isAndroid (OS B) && bound then
       tryCatch (await B (forceWifiUsageWithOptions false false) ;; setBound false)
                (fun _ => skip)
     else skip) ;;
    throw (JsError (failureMessage ssid currentSSID))
  else skip.

Definition disconnectFromIoTNetwork (B : Bridge) : M unit :=
  bound <- getBound ;;
  (if isAndroid (OS B) && bound then
     tryCatch (await B (forceWifiUsageWithOptions false false) ;; setBound false)
              (fun _ => skip)
   else skip) ;;
  (if isAndroid (OS B) then
     tryCatch (await B disconnect ;; skip) (fun _ => skip)
   else skip).

End IndexTs.

(** *** index.ts, later revision (join-once on iOS, unconditional reset) *)
Module IndexRev.
Import Js.
Local Open Scope js_scope.

Definition connectToIoTNetwork (B : Bridge) (ssid : string) (password : option string)
           (options : IoTOptions) : M unit :=
  let password := Str.orElse password "" in
  let usePrefix := Str.orElse (usePrefix options) false in
  let timeout := Str.orElse (timeout options) 30 in
  (if isAndroid (OS B) then
     await B (connectToProtectedWifiSSID
                {| opt_ssid := ssid; opt_password := orNull password;
                   opt_isHidden := false; opt_timeout := timeout;
                   opt_usePrefix := Some usePrefix |}) ;; skip
   else if usePrefix then
     await B (connectToProtectedSSIDPrefixOnce ssid (orNull password) false true) ;; skip
   else await B (connectToProtectedSSIDOnce ssid (orNull password) false true) ;; skip) ;;
  (if isAndroid (OS B) then
     tryCatch (await B (forceWifiUsageWithOptions true true) ;; setBound true)
              (fun _ => skip)
   else setBound true) ;;
  currentSSID <- await B getCurrentWifiSSID ;;
  if negb (connected usePrefix ssid currentSSID) then
    bound <- getBound ;;
    (if isAndroid (OS B) && bound then
       tryCatch (await B (forceWifiUsageWithOptions false false) ;; setBound false)
                (fun _ => skip)
     else skip) ;;
    setBound false ;;
    throw (JsError (failureMessage ssid currentSSID))
  else skip.

Definition disconnectFromIoTNetwork (B : Bridge) : M unit :=
  (if isAndroid (OS B) then
     bound <- getBound ;;
     (if bound then
        tryCatch (await B (forceWifiUsageWithOptions false false) ;; skip)
                 (fun _ => skip)
      else skip) ;;
     tryCatch (await B disconnect ;; skip) (fun _ => skip)
   else
     tryCatch (currentSSID <- await B getCurrentWifiSSID ;;
               match currentSSID with
               | Some cur =>
                   if truthy cur then await B (disconnectFromSSID cur) ;; skip
                   else skip
               | None => skip
               end)
              (fun _ => skip)) ;;
  setBound false.

End IndexRev.

(** ** Concrete platforms and bridges used to exercise the model *)
Module Samples.

Definition alreadyAssociatedError : Native.NSError :=
  {| Native.code := 13; Native.localizedDescription := "already associated." |}.

Definition userDeniedError : Native.NSError :=
  {| Native.code := 7; Native.localizedDescription := "user denied." |}.

Definition internalError : Native.NSError :=
  {| Native.code := 8; Native.localizedDescription := "internal error." |}.

(** The system accepts every configuration and no network is ever seen. *)
Definition silentPlatform : Native.Platform :=
  {| Native.iosVersion := 15;
     Native.ssidAt := fun _ => None;
     Native.applyOutcome := fun _ => None;
     Native.codes := Native.appleCodes |}.

(** The system accepts; the device's network shows on the third fetch. *)
Definition thirdTickPlatform : Native.Platform :=
  {| Native.iosVersion := 15;
     Native.ssidAt := fun n => if Nat.leb 2 n then Some "IoT-Device-42" else None;
     Native.applyOutcome := fun _ => None;
     Native.codes := Native.appleCodes |}.

(** The phone sits on another network and the system answers every
    configuration with the already-associated error. *)
Definition associatedPlatform : Native.Platform :=
  {| Native.iosVersion := 15;
     Native.ssidAt := fun _ => Some "HomeWifi";
     Native.applyOutcome := fun _ => Some alreadyAssociatedError;
     Native.codes := Native.appleCodes |}.

(** The phone is already on the device's network; the user refuses any new
    configuration. *)
Definition joinedPlatform : Native.Platform :=
  {| Native.iosVersion := 15;
     Native.ssidAt := fun _ => Some "IoT-Device-42";
     Native.applyOutcome := fun _ => Some userDeniedError;
     Native.codes := Native.appleCodes |}.

(** Android: every call succeeds except the unbind, and the phone reports
    another network. *)
Definition unbindFails : Js.Bridge :=
  {| Js.OS := Js.android;
     Js.answer := fun _ c =>
       match c with
       | Js.forceWifiUsageWithOptions false _ => Js.Reject "couldNotGetConnectivityManager"
       | Js.getCurrentWifiSSID => Js.Fulfil (Some "HomeWifi")
       | _ => Js.Fulfil None
       end |}.

(** Android: every call succeeds except reading the SSID. *)
Definition ssidUndetectable : Js.Bridge :=
  {| Js.OS := Js.android;
     Js.answer := fun _ c =>
       match c with
       | Js.getCurrentWifiSSID => Js.Reject "couldNotDetectSSID"
       | _ => Js.Fulfil None
       end |}.

(** iOS: every call succeeds and the phone reports a network whose name
    contains, but does not start with, the requested prefix. *)
Definition elsewhere : Js.Bridge :=
  {| Js.OS := Js.ios;
     Js.answer := fun _ c =>
       match c with
       | Js.getCurrentWifiSSID => Js.Fulfil (Some "MyIoT-1")
       | _ => Js.Fulfil None
       end |}.

(** A bridge on which every native call is rejected. *)
Definition allRejected (os : Js.PlatformOS) : Js.Bridge :=
  {| Js.OS := os; Js.answer := fun _ _ => Js.Reject "failed" |}.

Definition noOptions : Js.IoTOptions := {| Js.usePrefix := None; Js.timeout := None |}.
Definition prefixOptions : Js.IoTOptions := {| Js.usePrefix := Some true; Js.timeout := None |}.

End Samples.

(** ** Reading the current SSID (Swift): the permission flow *)

(** [getCurrentWifiSSID] and the [CLLocationManagerDelegate] extension.  A
    promise is named by a number chosen by the caller; the pair of blocks
    [resolve]/[reject] of one call carries the same number. *)
Module Location.
Import Native.

Inductive CLAuthorizationStatus :=
| notDetermined
| restricted
| denied
| authorizedAlways
| authorizedWhenInUse.

(** [status == .authorizedWhenInUse || status == .authorizedAlways]. *)
Definition authorized (status : CLAuthorizationStatus) : bool :=
  match status with
  | authorizedWhenInUse | authorizedAlways => true
  | _ => false
  end.

Definition isDenied (status : CLAuthorizationStatus) : bool :=
  match status with denied => true | _ => false end.

Definition isRestricted (status : CLAuthorizationStatus) : bool :=
  match status with restricted => true | _ => false end.

(** How the promise of [getCurrentWifiSSID] is settled. *)
Inductive SsidSettled :=
| ResolvedWith (ssid : string)
| RejectedWith (code message : string).

(** The stored properties of the module that the flow uses, the platform
    trace, and what has been handed to the promise blocks so far. *)
Record Manager := {
  pendingResolve : option nat;
  pendingReject : option nat;
  isWaitingForPermission : bool;
  permissionRequests : nat;                   (* requestWhenInUseAuthorization *)
  settlements : list (nat * SsidSettled);     (* oldest first *)
  world : World
}.

Definition manager0 : Manager :=
  {| pendingResolve := None; pendingReject := None; isWaitingForPermission := false;
     permissionRequests := 0; settlements := []; world := world0 |}.

(** Calling a promise block. *)
Definition settle (promise : nat) (outcome : SsidSettled) (m : Manager) : Manager :=
  {| pendingResolve := pendingResolve m; pendingReject := pendingReject m;
     isWaitingForPermission := isWaitingForPermission m;
     permissionRequests := permissionRequests m;
     settlements := settlements m ++ [(promise, outcome)];
     world := world m |}.

(** [fetchCurrentSSID { ssid in if let ssid { resolve(ssid) } else { reject(...) } }],
    the closure both entry points pass. *)
Definition fetchAndSettle (P : Platform) (resolve reject : nat) (m : Manager) : Manager :=
  let (ssid, w1) := fetchCurrentSSID P (world m) in
  let m1 := {| pendingResolve := pendingResolve m; pendingReject := pendingReject m;
               isWaitingForPermission := isWaitingForPermission m;
               permissionRequests := permissionRequests m;
               settlements := settlements m;
               world := w1 |} in
  match ssid with
  | Some ssid => settle resolve (ResolvedWith ssid) m1
  | None => settle reject (RejectedWith (rawValue couldNotDetectSSID) "Cannot detect SSID") m1
  end.

(** [getCurrentWifiSSID], called while the authorization status is [status]. *)
Definition getCurrentWifiSSID (P : Platform) (status : CLAuthorizationStatus)
           (promise : nat) (m : Manager) : Manager :=
  if available P 13 then
    if isDenied status then
      settle promise
             (RejectedWith (rawValue locationPermissionDenied)
                           "Cannot detect SSID - location permission denied") m
    else if isRestricted status then
      settle promise
             (RejectedWith (rawValue locationPermissionRestricted)
                           "Cannot detect SSID - location permission restricted") m
    else
      let hasPermission := authorized status in
      if negb hasPermission then
        {| pendingResolve := Some promise; pendingReject := Some promise;
           isWaitingForPermission := true;
           permissionRequests := S (permissionRequests m);
           settlements := settlements m;
           world := world m |}
      else fetchAndSettle P promise promise m
  else fetchAndSettle P promise promise m.

(** [locationManager(_:didChangeAuthorization:)]. *)
Definition didChangeAuthorization (P : Platform) (status : CLAuthorizationStatus)
           (m : Manager) : Manager :=
  match isWaitingForPermission m, pendingResolve m, pendingReject m with
  | true, Some resolve, Some reject =>
      let m1 := {| pendingResolve := None; pendingReject := None;
                   isWaitingForPermission := false;
                   permissionRequests := permissionRequests m;
                   settlements := settlements m;
                   world := world m |} in
      if authorized status then fetchAndSettle P resolve reject m1
      else settle reject
                  (RejectedWith (rawValue locationPermissionDenied)
                                "Location permission not granted") m1
  | _, _, _ => m
  end.

(** What happens to the module over time: calls from JavaScript and
    callbacks of the location manager, in any order. *)
Inductive Step :=
| Call (status : CLAuthorizationStatus) (promise : nat)
| Changed (status : CLAuthorizationStatus).

Definition step (P : Platform) (m : Manager) (st : Step) : Manager :=
  match st with
  | Call status promise => getCurrentWifiSSID P status promise m
  | Changed status => didChangeAuthorization P status m
  end.

Definition run (P : Platform) (steps : list Step) (m : Manager) : Manager :=
  List.fold_left (step P) steps m.

(** The promises that have been settled, and those a step list creates. *)
Definition settledPromises (m : Manager) : list nat := List.map fst (settlements m).

Fixpoint calledPromises (steps : list Step) : list nat :=
  match steps with
  | [] => []
  | Call _ promise :: rest => promise :: calledPromises rest
  | Changed _ :: rest => calledPromises rest
  end.

(** The promise the module would settle at the next callback. *)
Definition held (m : Manager) (promise : nat) : Prop :=
  pendingResolve m = Some promise \/ pendingReject m = Some promise.

(** [promise] has not been settled and is not held by the module. *)
Definition fresh (m : Manager) (promise : nat) : Prop :=
  ~ In promise (settledPromises m) /\ ~ held m promise.

(** No promise was settled twice, and no held promise was settled. *)
Definition wellFormed (m : Manager) : Prop :=
  NoDup (settledPromises m) /\
  (forall promise, held m promise -> ~ In promise (settledPromises m)).

End Location.

(** ** More ways of reading a run *)
Module Reading.

(** Total time asked of [asyncAfter], in milliseconds. *)
Fixpoint waited (es : list Native.Event) : Z :=
  match es with
  | [] => 0
  | Native.EvAsyncAfter interval :: rest => interval + waited rest
  | _ :: rest => waited rest
  end.

(** Number of [asyncAfter] calls. *)
Fixpoint waits (es : list Native.Event) : nat :=
  match es with
  | [] => 0%nat
  | Native.EvAsyncAfter _ :: rest => S (waits rest)
  | _ :: rest => waits rest
  end.

(** The bridge calls that ask the native side to join a network. *)
Definition isConnectCall (c : Js.NativeCall) : bool :=
  match c with
  | Js.connectToProtectedWifiSSID _ | Js.connectToSSIDPrefix _
  | Js.connectToProtectedSSIDPrefix _ _ _ | Js.connectToProtectedSSID _ _ _ _
  | Js.connectToProtectedSSIDPrefixOnce _ _ _ _
  | Js.connectToProtectedSSIDOnce _ _ _ _ => true
  | _ => false
  end.

(** The bridge calls that bind or unbind the traffic. *)
Definition isForceCall (c : Js.NativeCall) : bool :=
  match c with
  | Js.forceWifiUsageWithOptions _ _ => true
  | _ => false
  end.

Definition fulfilled (a : Js.Answer) : bool :=
  match a with Js.Fulfil _ => true | Js.Reject _ => false end.

(** The codes a connect call of the native module can reject with. *)
Definition connectCodes : list string :=
  List.map Native.rawValue
    [Native.unavailableForOSVersion; Native.invalid; Native.invalidSSID;
     Native.invalidSSIDPrefix; Native.invalidPassphrase; Native.userDenied;
     Native.unableToConnect].

End Reading.

(** * Properties *)

(** ** Strings *)
Module StrFacts.
Import Str.

Lemma prefix_iff (p s : string) :
  String.prefix p s = true <-> exists rest, s = p ++ rest.
Proof.
  revert s. induction p as [|a p IH]; intros s; simpl.
  - split; [intros _; now exists s | intros _; now destruct s].
  - destruct s as [|b s]; simpl.
    + split; [discriminate | intros [r H]; discriminate].
    + destruct (Ascii.ascii_dec a b) as [->|Hab].
      * rewrite IH. split; intros [r H]; exists r; [now rewrite H | now inversion H].
      * split; [discriminate | intros [r H]; inversion H; congruence].
Qed.

Lemma hasPrefix_iff (s p : string) :
  hasPrefix s p = true <-> exists rest, s = p ++ rest.
Proof. apply prefix_iff. Qed.



Lemma opt_eqb_iff (o : option string) (s : string) :
  opt_eqb o s = true <-> o = Some s.
Proof.
  destruct o as [t|]; simpl.
  - rewrite String.eqb_eq. split; congruence.
  - split; discriminate.
Qed.

End StrFacts.

(** ** The native module *)
Module NativeFacts.
Import Native.

(** *** The error mapper *)

Lemma rawValue_inj (a b : WifiError) : rawValue a = rawValue b -> a = b.
Proof. destruct a, b; simpl; intros H; first [reflexivity | discriminate H]. Qed.

Lemma parseError_names_a_kind (K : HotspotCodes) (error : NSError) :
  exists k, parseError K error = rawValue k.
Proof.
  unfold parseError; cbv zeta.
  repeat match goal with
         | |- context [if ?b then _ else _] => destruct b
         end; eexists; reflexivity.
Qed.

(** C8.  [parseError] is total: every platform error code is mapped to
    exactly one error kind, and a code outside the recognised set (invalid,
    invalidSSID, invalidSSIDPrefix, invalid WPA/WEP passphrase, userDenied)
    is mapped to [unableToConnect]. *)
Theorem parseError_total (K : HotspotCodes) (error : NSError) :
  (exists! k, parseError K error = rawValue k) /\
  (~ recognized K (code error) -> parseError K error = rawValue unableToConnect).
Proof.
  split.
  - destruct (parseError_names_a_kind K error) as [k Hk].
    exists k. split; [exact Hk|].
    intros k' Hk'. apply rawValue_inj. congruence.
  - intros Hn. unfold recognized in Hn. unfold parseError; cbv zeta.
    repeat match goal with
           | |- context [?a =? ?b] => destruct (Z.eqb_spec a b); [exfalso; tauto|]
           end.
    reflexivity.
Qed.

Lemma parseError_total_witness :
  parseError appleCodes Samples.internalError = rawValue unableToConnect.
Proof.
  apply (proj2 (parseError_total appleCodes Samples.internalError)).
  unfold recognized; simpl. lia.
Defined.

(** A recognised code never falls through to the catch-all. *)
Lemma parseError_recognized (K : HotspotCodes) (error : NSError) :
  recognized K (code error) -> parseError K error <> rawValue unableToConnect.
Proof.
  intros H. unfold parseError; cbv zeta.
  repeat match goal with
         | |- context [if ?b then _ else _] => destruct b eqn:?
         end; try (simpl; discriminate).
  exfalso. unfold recognized in H.
  repeat match goal with
         | E : (_ || _)%bool = false |- _ => apply orb_false_iff in E; destruct E
         | E : (_ =? _) = false |- _ => apply Z.eqb_neq in E
         end.
  tauto.
Qed.

(** *** Normalisation of the secret *)

(** The cipher is none only when the passphrase is empty. *)
Lemma cipher_none_iff_empty (target passphrase : string) (isWEP joinOnce : bool) :
  secretCipher (configForSSID target passphrase isWEP joinOnce) = CipherNone
  <-> passphrase = "".
Proof.
  unfold configForSSID. destruct passphrase; simpl.
  - split; reflexivity.
  - destruct isWEP; split; discriminate.
Qed.

(** *** The open variant *)

(** C10.  [connectToSSID ssid] settles as, and makes the same platform calls
    as, [connectToProtectedSSID ssid "" false false]. *)
Theorem connectToSSID_as_protected (P : Platform) (ssid : string) (w : World) :
  connectToSSID P ssid w = connectToProtectedSSID P ssid "" false false w.
Proof. reflexivity. Qed.

(** With an empty passphrase the two remaining flags are not observable. *)
Lemma connectToSSID_flags_irrelevant (P : Platform) (ssid : string)
      (isWEP isHidden : bool) (w : World) :
  connectToSSID P ssid w = connectToProtectedSSID P ssid "" isWEP isHidden w.
Proof. reflexivity. Qed.

(** *** One tick of the verification *)

Lemma verifyConnection_unfold P e ip sp N i c w :
  verifyConnection P e ip sp N i c w =
  let w1 := snd (fetchCurrentSSID P w) in
  if isConnected e ip sp (ssidAt P (fetches w)) then (Resolved, w1)
  else if c >=? N
       then (Rejected (rawValue unableToConnect) (timeoutMessage e sp), w1)
       else verifyConnection P e ip sp N i (c + 1) (emit (EvAsyncAfter i) w1).
Proof.
  rewrite verifyConnection_equation_1. cbn zeta. cbn [fst fetchCurrentSSID].
  destruct (isConnected e ip sp (ssidAt P (fetches w))); [reflexivity|].
  destruct (Z_ge_lt_dec c N) as [H|H];
    destruct (Z.geb_spec c N); first [reflexivity | lia].
Qed.

Lemma isConnected_exact (target : string) (sp cur : option string) :
  isConnected (Some target) false sp cur = true <-> cur = Some target.
Proof. unfold isConnected. apply StrFacts.opt_eqb_iff. Qed.

Lemma isConnected_prefix (e : option string) (prefix : string) (cur : option string) :
  isConnected e true (Some prefix) cur = true
  <-> exists s, cur = Some s /\ Str.starts_with_ci s prefix.
Proof.
  unfold isConnected, Str.starts_with_ci. destruct cur as [s|]; simpl.
  - rewrite StrFacts.hasPrefix_iff. split.
    + intros H. exists s. now split.
    + intros (s' & Hs & H). now inversion Hs.
  - split; [discriminate | intros (s & Hs & _); discriminate].
Qed.

Lemma isConnected_absent (e : option string) (ip : bool) (sp : option string) :
  isConnected e ip sp None = false.
Proof. unfold isConnected. destruct ip, sp, e; reflexivity. Qed.

(** C6.  The decision of a tick.  Exact mode: a match iff the identity seen
    is the target, letter for letter.  Prefix mode: a match iff an identity
    is seen and, lower-cased, starts with the lower-cased target.  No
    identity: no match, and the tick then behaves as any tick without a
    match, polling again while retries remain and otherwise reporting the
    time-out of the poller. *)
Theorem tick_decision :
  (forall target sp cur,
      isConnected (Some target) false sp cur = true <-> cur = Some target) /\
  (forall e prefix cur,
      isConnected e true (Some prefix) cur = true
      <-> exists s, cur = Some s /\ Str.starts_with_ci s prefix) /\
  (forall e ip sp, isConnected e ip sp None = false) /\
  (forall P e ip sp N i c w,
      ssidAt P (fetches w) = None -> c < N ->
      verifyConnection P e ip sp N i c w
      = verifyConnection P e ip sp N i (c + 1)
          (emit (EvAsyncAfter i) (snd (fetchCurrentSSID P w)))) /\
  (forall P e ip sp N i c w,
      ssidAt P (fetches w) = None -> N <= c ->
      verifyConnection P e ip sp N i c w
      = (Rejected (rawValue unableToConnect) (timeoutMessage e sp),
         snd (fetchCurrentSSID P w))).
Proof.
  split; [exact isConnected_exact|].
  split; [exact isConnected_prefix|].
  split; [exact isConnected_absent|].
  split; intros P e ip sp N i c w Hnone Hc;
    rewrite verifyConnection_unfold; cbv zeta;
    rewrite Hnone, isConnected_absent;
    destruct (Z.geb_spec c N); first [reflexivity | lia].
Qed.

Lemma tick_decision_witness :
  verifyConnection Samples.silentPlatform (Some "IoT-Device-42") false None 20 500 0 world0
  = verifyConnection Samples.silentPlatform (Some "IoT-Device-42") false None 20 500 (0 + 1)
      (emit (EvAsyncAfter 500) (snd (fetchCurrentSSID Samples.silentPlatform world0))).
Proof.
  apply (proj1 (proj2 (proj2 (proj2 tick_decision)))); [reflexivity | lia].
Defined.

(** *** The verification loop *)

Lemma fetches_after_tick P (i : Z) (w : World) :
  fetches (emit (EvAsyncAfter i) (snd (fetchCurrentSSID P w))) = S (fetches w).
Proof. reflexivity. Qed.

(** No match on any tick: the loop stops by itself, after the first check
    and every retry that was left. *)
Lemma verifyConnection_exhausts P e ip sp N i :
  forall (n : nat) (c : Z) (w : World),
    Z.to_nat (N - c) = n ->
    (forall j, (j <= n)%nat -> isConnected e ip sp (ssidAt P (fetches w + j)) = false) ->
    fst (verifyConnection P e ip sp N i c w)
      = Rejected (rawValue unableToConnect) (timeoutMessage e sp) /\
    fetches (snd (verifyConnection P e ip sp N i c w)) = (fetches w + S n)%nat.
Proof.
  induction n as [|n IH]; intros c w Hn Hno; rewrite verifyConnection_unfold; cbv zeta.
  - pose proof (Hno 0%nat (Nat.le_refl _)) as H0. rewrite Nat.add_0_r in H0. rewrite H0.
    destruct (Z.geb_spec c N); [|lia].
    split; [reflexivity | simpl; lia].
  - pose proof (Hno 0%nat (Nat.le_0_l _)) as H0. rewrite Nat.add_0_r in H0. rewrite H0.
    destruct (Z.geb_spec c N); [lia|].
    destruct (IH (c + 1) (emit (EvAsyncAfter i) (snd (fetchCurrentSSID P w)))) as [Hr Hf].
    + lia.
    + intros j Hj. rewrite fetches_after_tick.
      replace (S (fetches w) + j)%nat with (fetches w + S j)%nat by lia.
      apply Hno. lia.
    + split; [exact Hr|]. rewrite Hf, fetches_after_tick. lia.
Qed.

(** A first match after [k] ticks without one, reached before the retries
    run out: the loop resolves on that tick. *)
Lemma verifyConnection_matches P e ip sp N i :
  forall (k : nat) (c : Z) (w : World),
    (k = 0%nat \/ c + Z.of_nat k <= N) ->
    (forall j, (j < k)%nat -> isConnected e ip sp (ssidAt P (fetches w + j)) = false) ->
    isConnected e ip sp (ssidAt P (fetches w + k)) = true ->
    fst (verifyConnection P e ip sp N i c w) = Resolved /\
    fetches (snd (verifyConnection P e ip sp N i c w)) = (fetches w + S k)%nat.
Proof.
  induction k as [|k IH]; intros c w Hk Hno Hyes; rewrite verifyConnection_unfold; cbv zeta.
  - rewrite Nat.add_0_r in Hyes. rewrite Hyes. split; [reflexivity | simpl; lia].
  - pose proof (Hno 0%nat (Nat.lt_0_succ _)) as H0. rewrite Nat.add_0_r in H0. rewrite H0.
    destruct (Z.geb_spec c N); [lia|].
    destruct (IH (c + 1) (emit (EvAsyncAfter i) (snd (fetchCurrentSSID P w)))) as [Hr Hf].
    + right. lia.
    + intros j Hj. rewrite fetches_after_tick.
      replace (S (fetches w) + j)%nat with (fetches w + S j)%nat by lia.
      apply Hno. lia.
    + rewrite fetches_after_tick.
      replace (S (fetches w) + k)%nat with (fetches w + S k)%nat by lia. exact Hyes.
    + split; [exact Hr|]. rewrite Hf, fetches_after_tick. lia.
Qed.

(** The loop only ever appends fetches and waits to the trace. *)
Lemma verifyConnection_appends P e ip sp N i :
  forall (n : nat) (c : Z) (w : World),
    Z.to_nat (N - c) = n ->
    exists es, trace (snd (verifyConnection P e ip sp N i c w)) = (trace w ++ es)%list /\
               applied es = false.
Proof.
  induction n as [|n IH]; intros c w Hn; rewrite verifyConnection_unfold; cbv zeta;
    destruct (isConnected e ip sp (ssidAt P (fetches w)));
    try (eexists; split; [reflexivity | reflexivity]);
    destruct (Z.geb_spec c N); try lia;
    try (eexists; split; [reflexivity | reflexivity]).
  destruct (IH (c + 1) (emit (EvAsyncAfter i) (snd (fetchCurrentSSID P w)))) as (es & He & Ha);
    [lia|].
  exists (EvFetch (ssidAt P (fetches w)) :: EvAsyncAfter i :: es). split.
  - rewrite He. simpl. rewrite <- !app_assoc. reflexivity.
  - simpl. exact Ha.
Qed.

(** C2, as the code has it.  With [maxRetries = N] and no match ever, the
    loop fetches the identity [N + 1] times (the first check and [N]
    retries) and rejects with [unableToConnect]; with a first match on tick
    [k <= N + 1] it fetches exactly [k] times and resolves at once; and an
    accepted configuration is verified with [maxRetries = 20] and an
    interval of 500 ms. *)
Theorem verifyConnection_ticks :
  (forall P e ip sp N i w,
      (forall j, (j <= Z.to_nat N)%nat ->
                 isConnected e ip sp (ssidAt P (fetches w + j)) = false) ->
      fst (verifyConnection P e ip sp N i 0 w)
        = Rejected (rawValue unableToConnect) (timeoutMessage e sp) /\
      fetches (snd (verifyConnection P e ip sp N i 0 w))
        = (fetches w + (Z.to_nat N + 1))%nat) /\
  (forall P e ip sp N i w (k : nat),
      (1 <= k <= Z.to_nat N + 1)%nat ->
      (forall j, (j < k - 1)%nat ->
                 isConnected e ip sp (ssidAt P (fetches w + j)) = false) ->
      isConnected e ip sp (ssidAt P (fetches w + (k - 1))) = true ->
      fst (verifyConnection P e ip sp N i 0 w) = Resolved /\
      fetches (snd (verifyConnection P e ip sp N i 0 w)) = (fetches w + k)%nat) /\
  (forall P config e ip sp w,
      applyOutcome P config = None ->
      applyConfiguration P config e ip sp w
      = verifyConnection P e ip sp 20 500 0 (emit (EvApply config) w)).
Proof.
  split; [|split].
  - intros P e ip sp N i w Hno.
    destruct (verifyConnection_exhausts P e ip sp N i (Z.to_nat N) 0 w) as [Hr Hf].
    + f_equal. lia.
    + exact Hno.
    + split; [exact Hr|]. rewrite Hf. lia.
  - intros P e ip sp N i w k Hk Hno Hyes.
    destruct (verifyConnection_matches P e ip sp N i (k - 1)%nat 0 w) as [Hr Hf].
    + destruct (Nat.eq_dec k 1) as [->|Hne]; [left; reflexivity | right; lia].
    + exact Hno.
    + exact Hyes.
    + split; [exact Hr|]. rewrite Hf. lia.
  - intros P config e ip sp w Hnone. unfold applyConfiguration. cbv zeta.
    rewrite Hnone. reflexivity.
Qed.

Lemma verifyConnection_ticks_witness :
  fst (verifyConnection Samples.silentPlatform (Some "IoT-Device-42") false None 20 500 0 world0)
    = Rejected (rawValue unableToConnect) (timeoutMessage (Some "IoT-Device-42") None) /\
  fetches (snd (verifyConnection Samples.silentPlatform (Some "IoT-Device-42") false None
                                 20 500 0 world0))
    = (fetches world0 + (Z.to_nat 20 + 1))%nat.
Proof.
  apply (proj1 verifyConnection_ticks Samples.silentPlatform (Some "IoT-Device-42") false None
               20 500 world0).
  intros j _. reflexivity.
Defined.

(** C2, refuted as stated: with the bound of [connect], 20, and a network
    that never shows, the loop fetches the identity 21 times, not 20. *)
Lemma verifyConnection_ticks_not_N :
  (forall n, isConnected (Some "IoT-Device-42") false None
                         (ssidAt Samples.silentPlatform n) = false) /\
  fst (verifyConnection Samples.silentPlatform (Some "IoT-Device-42") false None 20 500 0 world0)
    = Rejected "unableToConnect" "Unable to connect to IoT-Device-42" /\
  fetches (snd (verifyConnection Samples.silentPlatform (Some "IoT-Device-42") false None
                                 20 500 0 world0)) = 21%nat /\
  fetches (snd (verifyConnection Samples.silentPlatform (Some "IoT-Device-42") false None
                                 20 500 0 world0)) <> Z.to_nat 20.
Proof.
  split; [intros n; reflexivity|].
  split; [vm_compute; reflexivity|].
  split; [vm_compute; reflexivity|].
  vm_compute. discriminate.
Qed.

(** The scenario of the specification: accepted, seen on the third tick. *)
Example third_tick_scenario :
  connectToProtectedSSIDOnce Samples.thirdTickPlatform "IoT-Device-42" "" false true
    {| fetches := 0; trace := [] |}
  = (Resolved,
     {| fetches := 3;
        trace := [EvFetch None;
                  EvApply (configForSSID "IoT-Device-42" "" false true);
                  EvFetch None; EvAsyncAfter 500;
                  EvFetch (Some "IoT-Device-42")] |}).
Proof. vm_compute. reflexivity. Qed.

(** *** Applying a configuration *)

(** [applyConfiguration] calls [apply] first of all, and only once. *)
Lemma applyConfiguration_applies P config e ip sp w :
  exists es, trace (snd (applyConfiguration P config e ip sp w))
             = (trace w ++ EvApply config :: es)%list /\
             applied es = false.
Proof.
  unfold applyConfiguration; cbv zeta.
  destruct (applyOutcome P config) as [error|].
  - destruct (code error =? code_alreadyAssociated (codes P)); exists [];
      split; reflexivity.
  - destruct (verifyConnection_appends P e ip sp 20 500 (Z.to_nat (20 - 0)) 0
                (emit (EvApply config) w) eq_refl) as (es & He & Ha).
    exists es. split; [|exact Ha].
    rewrite He. simpl. rewrite <- app_assoc. reflexivity.
Qed.

Lemma appliedConfigs_none (es : list Event) :
  applied es = false -> appliedConfigs es = [].
Proof.
  induction es as [|ev es IH]; [reflexivity|].
  unfold applied. simpl. destruct ev; simpl; try exact IH. discriminate.
Qed.

(** *** Normalisation of the secret, on the calls *)

Lemma connectToProtectedSSIDOnce_trace P ssid passphrase isWEP joinOnce w :
  exists es,
    trace (snd (connectToProtectedSSIDOnce P ssid passphrase isWEP joinOnce w))
    = (trace w ++ es)%list /\
    (appliedConfigs es = [] \/
     appliedConfigs es = [configForSSID ssid passphrase isWEP joinOnce]).
Proof.
  unfold connectToProtectedSSIDOnce.
  destruct (negb (available P 11)).
  - exists []. split; [simpl; now rewrite app_nil_r | now left].
  - unfold fetchCurrentSSID.
    destruct (Str.opt_eqb (ssidAt P (fetches w)) ssid).
    + eexists. split; [reflexivity | now left].
    + cbv zeta.
      match goal with |- context [applyConfiguration P ?c ?e ?ip ?sp ?w1] =>
        destruct (applyConfiguration_applies P c e ip sp w1) as (es & He & Ha)
      end.
      exists (EvFetch (ssidAt P (fetches w)) :: EvApply (configForSSID ssid passphrase isWEP joinOnce) :: es).
      split.
      * rewrite He. simpl. rewrite <- app_assoc. reflexivity.
      * right. simpl. now rewrite (appliedConfigs_none es Ha).
Qed.

Lemma connectToProtectedSSIDPrefixOnce_trace P ssidPrefix passphrase isWEP joinOnce w :
  exists es,
    trace (snd (connectToProtectedSSIDPrefixOnce P ssidPrefix passphrase isWEP joinOnce w))
    = (trace w ++ es)%list /\
    (appliedConfigs es = [] \/
     appliedConfigs es = [configForSSIDPrefix ssidPrefix passphrase isWEP joinOnce]).
Proof.
  unfold connectToProtectedSSIDPrefixOnce.
  destruct (negb (available P 13)).
  - exists []. split; [simpl; now rewrite app_nil_r | now left].
  - cbv zeta.
    match goal with |- context [applyConfiguration P ?c ?e ?ip ?sp ?w1] =>
      destruct (applyConfiguration_applies P c e ip sp w1) as (es & He & Ha)
    end.
    exists (EvApply (configForSSIDPrefix ssidPrefix passphrase isWEP joinOnce) :: es).
    split; [exact He|].
    right. simpl. now rewrite (appliedConfigs_none es Ha).
Qed.

(** C5.  With an empty passphrase the configuration built by the connect
    variants is the open one (no credentials, cipher none), whatever the
    [isWEP] flag; and every configuration such a call hands to [apply] is
    open. *)
Theorem empty_secret_is_open (target : string) (isWEP joinOnce : bool) :
  secretCipher (configForSSID target "" isWEP joinOnce) = CipherNone /\
  configForSSID target "" isWEP joinOnce = set_joinOnce joinOnce (init_ssid target) /\
  secretCipher (configForSSIDPrefix target "" isWEP joinOnce) = CipherNone /\
  configForSSIDPrefix target "" isWEP joinOnce
    = set_joinOnce joinOnce (init_ssidPrefix target) /\
  (forall P w, exists es,
      trace (snd (connectToProtectedSSIDOnce P target "" isWEP joinOnce w))
      = (trace w ++ es)%list /\
      forallb isOpen (appliedConfigs es) = true) /\
  (forall P w, exists es,
      trace (snd (connectToProtectedSSIDPrefixOnce P target "" isWEP joinOnce w))
      = (trace w ++ es)%list /\
      forallb isOpen (appliedConfigs es) = true).
Proof.
  do 4 (split; [reflexivity|]). split; intros P w.
  - destruct (connectToProtectedSSIDOnce_trace P target "" isWEP joinOnce w)
      as (es & He & [Hc|Hc]);
      exists es; (split; [exact He | rewrite Hc; reflexivity]).
  - destruct (connectToProtectedSSIDPrefixOnce_trace P target "" isWEP joinOnce w)
      as (es & He & [Hc|Hc]);
      exists es; (split; [exact He | rewrite Hc; reflexivity]).
Qed.

(** C1, as the code has it.  When [apply] reports the already-associated
    error the promise is resolved at once: the call succeeds, never fails,
    and the verification loop is not run (no identity is fetched after
    [apply]). *)
Theorem alreadyAssociated_resolves_unverified P config e ip sp w error :
  applyOutcome P config = Some error ->
  code error = code_alreadyAssociated (codes P) ->
  applyConfiguration P config e ip sp w = (Resolved, emit (EvApply config) w) /\
  fetches (snd (applyConfiguration P config e ip sp w)) = fetches w.
Proof.
  intros Hout Hcode. unfold applyConfiguration; cbv zeta.
  rewrite Hout, Hcode, Z.eqb_refl. split; reflexivity.
Qed.

Lemma alreadyAssociated_resolves_unverified_witness :
  applyConfiguration Samples.associatedPlatform (configForSSID "IoT-Device-42" "" false true)
                     (Some "IoT-Device-42") false None world0
  = (Resolved, emit (EvApply (configForSSID "IoT-Device-42" "" false true)) world0) /\
  fetches (snd (applyConfiguration Samples.associatedPlatform
                  (configForSSID "IoT-Device-42" "" false true)
                  (Some "IoT-Device-42") false None world0)) = fetches world0.
Proof.
  apply (alreadyAssociated_resolves_unverified Samples.associatedPlatform
           (configForSSID "IoT-Device-42" "" false true) (Some "IoT-Device-42") false None
           world0 Samples.alreadyAssociatedError); reflexivity.
Defined.

(** C1, refuted as stated: the phone is on another network, [apply] reports
    already-associated, and the connect call resolves although no tick of
    the verification follows [apply]. *)
Lemma alreadyAssociated_skips_verification :
  applyOutcome Samples.associatedPlatform (configForSSID "IoT-Device-42" "" false true)
    = Some Samples.alreadyAssociatedError /\
  code Samples.alreadyAssociatedError = code_alreadyAssociated (codes Samples.associatedPlatform) /\
  connectToProtectedSSIDOnce Samples.associatedPlatform "IoT-Device-42" "" false true world0
    = (Resolved,
       {| fetches := 1;
          trace := [EvFetch (Some "HomeWifi");
                    EvApply (configForSSID "IoT-Device-42" "" false true)] |}) /\
  ~ (1 <= ticksAfterApply
            (trace (snd (connectToProtectedSSIDOnce Samples.associatedPlatform
                           "IoT-Device-42" "" false true world0))))%nat.
Proof.
  split; [reflexivity|]. split; [reflexivity|]. split; [reflexivity|].
  vm_compute. intros H. inversion H.
Qed.

(** *** Already connected *)

Lemma connectToProtectedSSIDOnce_joined P ssid passphrase isWEP joinOnce w :
  available P 11 = true ->
  ssidAt P (fetches w) = Some ssid ->
  connectToProtectedSSIDOnce P ssid passphrase isWEP joinOnce w
  = (Resolved,
     {| fetches := S (fetches w);
        trace := (trace w ++ [EvFetch (Some ssid)])%list |}).
Proof.
  intros Hav Hcur.
  unfold connectToProtectedSSIDOnce, fetchCurrentSSID. rewrite Hav, Hcur. simpl.
  rewrite String.eqb_refl. reflexivity.
Qed.

(** C4, as the code has it.  The exact variant first fetches the identity
    and, when it is the target, resolves without calling [apply]; the prefix
    variants make no such check and always call [apply]. *)
Theorem exact_short_circuit :
  (forall P ssid passphrase isWEP joinOnce w,
      available P 11 = true ->
      ssidAt P (fetches w) = Some ssid ->
      connectToProtectedSSIDOnce P ssid passphrase isWEP joinOnce w
      = (Resolved,
         {| fetches := S (fetches w);
            trace := (trace w ++ [EvFetch (Some ssid)])%list |})) /\
  (forall P ssidPrefix passphrase isWEP joinOnce w,
      available P 13 = true ->
      exists es,
        trace (snd (connectToProtectedSSIDPrefixOnce P ssidPrefix passphrase isWEP joinOnce w))
        = (trace w ++ EvApply (configForSSIDPrefix ssidPrefix passphrase isWEP joinOnce)
                 :: es)%list) /\
  (forall P ssidPrefix w,
      available P 13 = true ->
      exists es,
        trace (snd (connectToSSIDPrefix P ssidPrefix w))
        = (trace w ++ EvApply (set_joinOnce false (init_ssidPrefix ssidPrefix)) :: es)%list).
Proof.
  split; [|split].
  - intros P ssid passphrase isWEP joinOnce w Hav Hcur.
    now apply connectToProtectedSSIDOnce_joined.
  - intros P ssidPrefix passphrase isWEP joinOnce w Hav.
    unfold connectToProtectedSSIDPrefixOnce. rewrite Hav. cbn [negb]. cbv zeta.
    match goal with |- context [applyConfiguration P ?c ?e ?ip ?sp ?w1] =>
      destruct (applyConfiguration_applies P c e ip sp w1) as (es & He & _)
    end.
    now exists es.
  - intros P ssidPrefix w Hav.
    unfold connectToSSIDPrefix. rewrite Hav. cbn [negb]. cbv zeta.
    match goal with |- context [applyConfiguration P ?c ?e ?ip ?sp ?w1] =>
      destruct (applyConfiguration_applies P c e ip sp w1) as (es & He & _)
    end.
    now exists es.
Qed.

Lemma exact_short_circuit_witness :
  connectToProtectedSSIDOnce Samples.joinedPlatform "IoT-Device-42" "secret" false true world0
  = (Resolved,
     {| fetches := S (fetches world0);
        trace := (trace world0 ++ [EvFetch (Some "IoT-Device-42")])%list |}).
Proof.
  apply (proj1 exact_short_circuit Samples.joinedPlatform "IoT-Device-42" "secret" false true
               world0); reflexivity.
Defined.

(** The variants that delegate to the exact one inherit the short cut. *)
Lemma exact_short_circuit_delegates P ssid passphrase isWEP isHidden w :
  available P 11 = true ->
  ssidAt P (fetches w) = Some ssid ->
  applied (trace (snd (connectToProtectedSSID P ssid passphrase isWEP isHidden w)))
    = applied (trace w) /\
  fst (connectToProtectedSSID P ssid passphrase isWEP isHidden w) = Resolved /\
  fst (connectToSSID P ssid w) = Resolved.
Proof.
  intros Hav Hcur. unfold connectToSSID, connectToProtectedSSID.
  rewrite !connectToProtectedSSIDOnce_joined by assumption.
  simpl. unfold applied. rewrite existsb_app. simpl. rewrite orb_false_r. auto.
Qed.

(** C4, refuted as stated: in prefix mode the phone is already on a network
    that matches, yet [apply] is called and, the user refusing, the call is
    rejected. *)
Lemma prefix_variant_has_no_short_circuit :
  isConnected None true (Some "iot") (ssidAt Samples.joinedPlatform (fetches world0)) = true /\
  connectToProtectedSSIDPrefixOnce Samples.joinedPlatform "iot" "" false true world0
  = (Rejected "userDenied" "user denied.",
     {| fetches := 0; trace := [EvApply (configForSSIDPrefix "iot" "" false true)] |}) /\
  applied (trace (snd (connectToProtectedSSIDPrefixOnce Samples.joinedPlatform
                         "iot" "" false true world0))) = true.
Proof. repeat split. Qed.

End NativeFacts.

(** ** The JavaScript wrapper *)
Module JsFacts.
Import Js.

Ltac js_unfold :=
  unfold IndexTs.connectToIoTNetwork, IndexTs.disconnectFromIoTNetwork,
         IndexRev.connectToIoTNetwork, IndexRev.disconnectFromIoTNetwork;
  cbv zeta;
  unfold skip; unfold bind, tryCatch, await, ret, throw, getBound, setBound.

Ltac js_case :=
  match goal with
  | |- context [match answer ?B ?n ?c with _ => _ end] =>
      destruct (answer B n c) eqn:?
  | |- context [if ?b then _ else _] => destruct b eqn:?
  | |- context [match ?o with Some _ => _ | None => _ end] => destruct o eqn:?
  end; cbn.

(** *** Disconnecting *)

Lemma IndexTs_disconnect_resolves (B : Bridge) (s : State) :
  fst (IndexTs.disconnectFromIoTNetwork B s) = Normal tt.
Proof. js_unfold. cbn. repeat js_case; reflexivity. Qed.

Lemma IndexRev_disconnect_resolves (B : Bridge) (s : State) :
  fst (IndexRev.disconnectFromIoTNetwork B s) = Normal tt.
Proof. js_unfold. cbn. repeat js_case; reflexivity. Qed.

(** C9.  [disconnectFromIoTNetwork] never rejects: whatever the platform is
    and however the unbind, disconnect, SSID and removal calls settle, the
    promise of either revision is fulfilled. *)
Theorem disconnectFromIoTNetwork_resolves (B : Bridge) (s : State) :
  fst (IndexTs.disconnectFromIoTNetwork B s) = Normal tt /\
  fst (IndexRev.disconnectFromIoTNetwork B s) = Normal tt.
Proof.
  split; [apply IndexTs_disconnect_resolves | apply IndexRev_disconnect_resolves].
Qed.

(** The later revision also leaves the flag cleared, in every case. *)
Lemma IndexRev_disconnect_unbinds (B : Bridge) (s : State) :
  isIoTNetworkBound (snd (IndexRev.disconnectFromIoTNetwork B s)) = false.
Proof. js_unfold. cbn. repeat js_case; reflexivity. Qed.

Example disconnect_all_rejected :
  IndexRev.disconnectFromIoTNetwork (Samples.allRejected android)
    {| isIoTNetworkBound := true; calls := [] |}
  = (Normal tt,
     {| isIoTNetworkBound := false;
        calls := [forceWifiUsageWithOptions false false; disconnect] |}).
Proof. reflexivity. Qed.

(** *** The final check of [connectToIoTNetwork] *)



Lemma MyIoT_not_prefixed : ~ Str.starts_with_ci "MyIoT-1" "IoT".
Proof. intros [rest H]. vm_compute in H. discriminate H. Qed.

(** C7 fails on the code: with [usePrefix] the final check of
    [connectToIoTNetwork] uses [includes]; a network whose name contains
    the requested prefix without starting with it is accepted, and the call
    is fulfilled, in both revisions. *)
Theorem iot_check_accepts_containment :
  connected true "IoT" (Some "MyIoT-1") = true /\
  ~ Str.starts_with_ci "MyIoT-1" "IoT" /\
  IndexTs.connectToIoTNetwork Samples.elsewhere "IoT" None Samples.prefixOptions state0
  = (Normal tt,
     {| isIoTNetworkBound := false;
        calls := [connectToSSIDPrefix "IoT"; getCurrentWifiSSID] |}) /\
  IndexRev.connectToIoTNetwork Samples.elsewhere "IoT" None Samples.prefixOptions state0
  = (Normal tt,
     {| isIoTNetworkBound := true;
        calls := [connectToProtectedSSIDPrefixOnce "IoT" None false true;
                  getCurrentWifiSSID] |}).
Proof.
  split; [reflexivity|]. split; [exact MyIoT_not_prefixed|].
  split; reflexivity.
Qed.

(** *** Rolling back the traffic binding *)

(** C3 fails on the older revision: on Android, with the traffic bound and
    another network reported, an unbind that throws leaves
    [isIoTNetworkBound] set when the failure is thrown to the caller. *)
Theorem IndexTs_rollback_leaves_flag_set :
  IndexTs.connectToIoTNetwork Samples.unbindFails "IoT-Device-42" None Samples.noOptions state0
  = (Throw (JsError
       "Failed to connect to IoT network. Expected: IoT-Device-42, Got: HomeWifi"),
     {| isIoTNetworkBound := true;
        calls := [isRemoveWifiNetwork "IoT-Device-42";
                  connectToProtectedWifiSSID
                    {| opt_ssid := "IoT-Device-42"; opt_password := None;
                       opt_isHidden := false; opt_timeout := 30;
                       opt_usePrefix := None |};
                  forceWifiUsageWithOptions true true;
                  getCurrentWifiSSID;
                  forceWifiUsageWithOptions false false] |}).
Proof. reflexivity. Qed.

(** The later revision clears the flag on the same run ... *)
Example IndexRev_rollback_same_run :
  isIoTNetworkBound
    (snd (IndexRev.connectToIoTNetwork Samples.unbindFails "IoT-Device-42" None
            Samples.noOptions state0)) = false.
Proof. reflexivity. Qed.

(** ... and on every run that ends in the failure of the final check. *)
Lemma IndexRev_rollback_clears_flag (B : Bridge) (ssid : string) (password : option string)
      (options : IoTOptions) (s : State) (message : string) :
  fst (IndexRev.connectToIoTNetwork B ssid password options s) = Throw (JsError message) ->
  isIoTNetworkBound (snd (IndexRev.connectToIoTNetwork B ssid password options s)) = false.
Proof.
  js_unfold. cbn.
  repeat js_case; intros H; first [reflexivity | discriminate H].
Qed.

(** In both revisions a rejected [getCurrentWifiSSID] leaves the flag set:
    the clean-up is only reached through the comparison. *)
Example rejected_ssid_read_leaves_flag_set :
  IndexTs.connectToIoTNetwork Samples.ssidUndetectable "IoT-Device-42" None
                              Samples.noOptions state0
  = (Throw (NativeRejection "couldNotDetectSSID"),
     {| isIoTNetworkBound := true;
        calls := [isRemoveWifiNetwork "IoT-Device-42";
                  connectToProtectedWifiSSID
                    {| opt_ssid := "IoT-Device-42"; opt_password := None;
                       opt_isHidden := false; opt_timeout := 30;
                       opt_usePrefix := None |};
                  forceWifiUsageWithOptions true true;
                  getCurrentWifiSSID] |}) /\
  IndexRev.connectToIoTNetwork Samples.ssidUndetectable "IoT-Device-42" None
                               Samples.noOptions state0
  = (Throw (NativeRejection "couldNotDetectSSID"),
     {| isIoTNetworkBound := true;
        calls := [connectToProtectedWifiSSID
                    {| opt_ssid := "IoT-Device-42"; opt_password := None;
                       opt_isHidden := false; opt_timeout := 30;
                       opt_usePrefix := Some false |};
                  forceWifiUsageWithOptions true true;
                  getCurrentWifiSSID] |}).
Proof. split; reflexivity. Qed.

End JsFacts.

(** ** Reading the current SSID *)
Module LocationFacts.
Import Native Location.

Ltac loc_unfold :=
  unfold getCurrentWifiSSID, didChangeAuthorization, fetchAndSettle, settle,
         fetchCurrentSSID; cbn.

(** X1.  Asking while the permission is undetermined and then being granted
    it settles the promise exactly as a call made with the permission in
    hand: same outcome for the same promise, same single fetch; the prompt
    was shown once and the module no longer waits. *)
Theorem prompt_then_granted P (promise : nat) (m : Manager)
        (status : CLAuthorizationStatus) :
  available P 13 = true ->
  authorized status = true ->
  settlements (didChangeAuthorization P status
                 (getCurrentWifiSSID P notDetermined promise m))
    = settlements (getCurrentWifiSSID P status promise m) /\
  world (didChangeAuthorization P status
           (getCurrentWifiSSID P notDetermined promise m))
    = world (getCurrentWifiSSID P status promise m) /\
  isWaitingForPermission (didChangeAuthorization P status
                            (getCurrentWifiSSID P notDetermined promise m)) = false /\
  permissionRequests (didChangeAuthorization P status
                        (getCurrentWifiSSID P notDetermined promise m))
    = S (permissionRequests m).
Proof.
  intros Hav Hs. unfold getCurrentWifiSSID. rewrite Hav. cbn.
  unfold didChangeAuthorization. cbn. rewrite Hs.
  destruct status; try discriminate Hs; cbn;
    unfold fetchAndSettle, fetchCurrentSSID; cbn;
    destruct (ssidAt P (fetches (world m))); cbn; repeat split.
Qed.

Lemma prompt_then_granted_witness :
  settlements (didChangeAuthorization Samples.joinedPlatform authorizedWhenInUse
                 (getCurrentWifiSSID Samples.joinedPlatform notDetermined 7 manager0))
    = [(7%nat, ResolvedWith "IoT-Device-42")].
Proof.
  rewrite (proj1 (prompt_then_granted Samples.joinedPlatform 7 manager0
                    authorizedWhenInUse eq_refl eq_refl)).
  reflexivity.
Defined.

(** X2.  A prompt that does not end in an authorization rejects the waiting
    promise with [locationPermissionDenied], whatever the new status is
    (restricted included, which a direct call reports as
    [locationPermissionRestricted]), without reading the SSID. *)
Theorem prompt_then_refused P (promise : nat) (m : Manager)
        (status : CLAuthorizationStatus) :
  available P 13 = true ->
  authorized status = false ->
  settlements (didChangeAuthorization P status
                 (getCurrentWifiSSID P notDetermined promise m))
    = (settlements m ++
       [(promise, RejectedWith "locationPermissionDenied"
                               "Location permission not granted")])%list /\
  world (didChangeAuthorization P status
           (getCurrentWifiSSID P notDetermined promise m)) = world m /\
  settlements (getCurrentWifiSSID P restricted promise m)
    = (settlements m ++
       [(promise, RejectedWith "locationPermissionRestricted"
                               "Cannot detect SSID - location permission restricted")])%list.
Proof.
  intros Hav Hs. unfold getCurrentWifiSSID. rewrite Hav. cbn.
  unfold didChangeAuthorization. cbn. rewrite Hs. cbn. repeat split.
Qed.

Lemma prompt_then_refused_witness :
  settlements (didChangeAuthorization Samples.joinedPlatform restricted
                 (getCurrentWifiSSID Samples.joinedPlatform notDetermined 7 manager0))
    = [(7%nat, RejectedWith "locationPermissionDenied" "Location permission not granted")].
Proof.
  exact (proj1 (prompt_then_refused Samples.joinedPlatform 7 manager0 restricted
                  eq_refl eq_refl)).
Defined.

(** X3.  A call either settles its own promise at once, leaving the waiting
    state as it was, or (only on iOS 13 or later with the status
    undetermined) shows the prompt once and holds the promise: never both. *)
Theorem call_settles_or_prompts P (status : CLAuthorizationStatus) (promise : nat)
        (m : Manager) :
  (exists outcome,
      settlements (getCurrentWifiSSID P status promise m)
        = (settlements m ++ [(promise, outcome)])%list /\
      permissionRequests (getCurrentWifiSSID P status promise m) = permissionRequests m /\
      pendingResolve (getCurrentWifiSSID P status promise m) = pendingResolve m /\
      pendingReject (getCurrentWifiSSID P status promise m) = pendingReject m /\
      isWaitingForPermission (getCurrentWifiSSID P status promise m)
        = isWaitingForPermission m) \/
  (available P 13 = true /\ status = notDetermined /\
   settlements (getCurrentWifiSSID P status promise m) = settlements m /\
   world (getCurrentWifiSSID P status promise m) = world m /\
   permissionRequests (getCurrentWifiSSID P status promise m) = S (permissionRequests m) /\
   pendingResolve (getCurrentWifiSSID P status promise m) = Some promise /\
   pendingReject (getCurrentWifiSSID P status promise m) = Some promise /\
   isWaitingForPermission (getCurrentWifiSSID P status promise m) = true).
Proof.
  unfold getCurrentWifiSSID.
  destruct (available P 13) eqn:Hav; [destruct status|]; cbn;
    try (right; repeat split; reflexivity);
    left; unfold fetchAndSettle, fetchCurrentSSID; cbn;
    try destruct (ssidAt P (fetches (world m))); cbn;
    eexists; repeat split.
Qed.

(** X4.  The callback settles at most one promise: a second callback,
    whatever its status, changes nothing. *)
Theorem didChangeAuthorization_once P (s1 s2 : CLAuthorizationStatus) (m : Manager) :
  didChangeAuthorization P s2 (didChangeAuthorization P s1 m)
  = didChangeAuthorization P s1 m.
Proof.
  unfold didChangeAuthorization at 2 3.
  destruct (isWaitingForPermission m) eqn:Hw;
    destruct (pendingResolve m) eqn:Hr; destruct (pendingReject m) eqn:Hj;
    try (unfold didChangeAuthorization; rewrite Hw, ?Hr, ?Hj; reflexivity).
  destruct (authorized s1); unfold fetchAndSettle, fetchCurrentSSID; cbn;
    try destruct (ssidAt P (fetches (world m))); reflexivity.
Qed.

(** *** Promises over a history of calls and callbacks *)

Lemma settledPromises_settle promise outcome m :
  settledPromises (settle promise outcome m) = (settledPromises m ++ [promise])%list.
Proof. unfold settledPromises, settle. cbn. now rewrite map_app. Qed.

Lemma NoDup_snoc (l : list nat) (a : nat) : NoDup l -> ~ In a l -> NoDup (l ++ [a]).
Proof.
  intros Hl Ha. apply NoDup_app; [exact Hl | repeat constructor; simpl; tauto |].
  intros x Hx [<-|[]]. contradiction.
Qed.

(** What a call does to the settled promises and the held ones. *)
Lemma call_effect P status promise m :
  (settledPromises (getCurrentWifiSSID P status promise m)
     = (settledPromises m ++ [promise])%list /\
   forall q, held (getCurrentWifiSSID P status promise m) q <-> held m q) \/
  (settledPromises (getCurrentWifiSSID P status promise m) = settledPromises m /\
   forall q, held (getCurrentWifiSSID P status promise m) q <-> q = promise).
Proof.
  unfold getCurrentWifiSSID, held, settledPromises.
  destruct (available P 13); [destruct status|]; cbn;
    try (right; split; [reflexivity|]; intros q; split;
         [intros [H|H]; now inversion H | intros ->; now left]);
    left; unfold fetchAndSettle, fetchCurrentSSID; cbn;
    try destruct (ssidAt P (fetches (world m))); cbn;
    rewrite ?map_app; (split; [reflexivity | intros q; reflexivity]).
Qed.

(** What a callback does to them. *)
Lemma changed_effect P status m :
  didChangeAuthorization P status m = m \/
  (exists promise, held m promise /\
     settledPromises (didChangeAuthorization P status m)
       = (settledPromises m ++ [promise])%list /\
     forall q, ~ held (didChangeAuthorization P status m) q).
Proof.
  unfold didChangeAuthorization, held, settledPromises.
  destruct (isWaitingForPermission m); [|now left].
  destruct (pendingResolve m) as [r|]; [|now left].
  destruct (pendingReject m) as [j|]; [|now left].
  right. destruct (authorized status).
  - unfold fetchAndSettle, fetchCurrentSSID; cbn.
    destruct (ssidAt P (fetches (world m))); cbn; rewrite map_app.
    + exists r. split; [now left|]. split; [reflexivity|].
      intros q [H|H]; discriminate H.
    + exists j. split; [now right|]. split; [reflexivity|].
      intros q [H|H]; discriminate H.
  - cbn. rewrite map_app. exists j. split; [now right|]. split; [reflexivity|].
    intros q [H|H]; discriminate H.
Qed.

Lemma step_keeps_fresh P (st : Step) (m : Manager) (q : nat) :
  fresh m q -> ~ In q (calledPromises [st]) -> fresh (step P m st) q.
Proof.
  intros [Hs Hh] Hq. destruct st as [status promise|status]; cbn in *.
  - assert (q <> promise) by (intros ->; apply Hq; now left).
    destruct (call_effect P status promise m) as [[He Hheld]|[He Hheld]];
      unfold fresh; rewrite He; split.
    + rewrite in_app_iff. simpl. intuition congruence.
    + rewrite Hheld. exact Hh.
    + exact Hs.
    + rewrite Hheld. exact H.
  - destruct (changed_effect P status m) as [->|(p & Hp & He & Hnone)];
      [split; assumption|].
    unfold fresh. rewrite He. split; [|apply Hnone].
    rewrite in_app_iff. simpl. intros [H|[->|[]]]; [contradiction|]. contradiction.
Qed.

Lemma step_keeps_wellFormed P (st : Step) (m : Manager) :
  wellFormed m ->
  (forall q, In q (calledPromises [st]) -> fresh m q) ->
  wellFormed (step P m st).
Proof.
  intros [Hnd Hheld] Hfresh. destruct st as [status promise|status]; cbn in *.
  - destruct (Hfresh promise (or_introl eq_refl)) as [Hs Hh].
    destruct (call_effect P status promise m) as [[He Hh']|[He Hh']];
      unfold wellFormed; rewrite He; split.
    + now apply NoDup_snoc.
    + intros q Hq. rewrite Hh' in Hq. rewrite in_app_iff. simpl.
      intros [H|[<-|[]]]; [now apply (Hheld q)|contradiction].
    + exact Hnd.
    + intros q Hq. rewrite Hh' in Hq. now subst q.
  - destruct (changed_effect P status m) as [->|(p & Hp & He & Hnone)];
      [split; assumption|].
    unfold wellFormed. rewrite He. split.
    + apply NoDup_snoc; [exact Hnd | now apply Hheld].
    + intros q Hq. now apply Hnone in Hq.
Qed.

Lemma calledPromises_cons st steps :
  calledPromises (st :: steps) = (calledPromises [st] ++ calledPromises steps)%list.
Proof. destruct st; reflexivity. Qed.

Lemma run_keeps_fresh P (steps : list Step) :
  forall (m : Manager) (q : nat),
    fresh m q -> ~ In q (calledPromises steps) -> fresh (run P steps m) q.
Proof.
  induction steps as [|st steps IH]; intros m q Hf Hq; [exact Hf|].
  rewrite calledPromises_cons, in_app_iff in Hq.
  cbn. apply IH; [apply step_keeps_fresh|]; tauto.
Qed.

Lemma run_keeps_wellFormed P (steps : list Step) :
  forall (m : Manager),
    wellFormed m ->
    NoDup (calledPromises steps) ->
    (forall q, In q (calledPromises steps) -> fresh m q) ->
    wellFormed (run P steps m).
Proof.
  induction steps as [|st steps IH]; intros m Hwf Hnd Hfresh; [exact Hwf|].
  rewrite calledPromises_cons in Hnd, Hfresh.
  cbn. apply IH.
  - apply step_keeps_wellFormed; [exact Hwf|].
    intros q Hq. apply Hfresh. rewrite in_app_iff. now left.
  - now apply NoDup_app_remove_l in Hnd.
  - intros q Hq. apply step_keeps_fresh.
    + apply Hfresh. rewrite in_app_iff. now right.
    + intros Hin. destruct st as [s p|s]; cbn in *; [|exact Hin].
      destruct Hin as [<-|[]]. inversion Hnd; subst. contradiction.
Qed.

(** X5.  Over any history of calls and callbacks that starts from a fresh
    module and names each call's promise differently, no promise is ever
    settled twice. *)
Theorem promise_settled_at_most_once P (steps : list Step) :
  NoDup (calledPromises steps) ->
  NoDup (settledPromises (run P steps manager0)).
Proof.
  intros Hnd.
  apply (run_keeps_wellFormed P steps manager0); [| exact Hnd |].
  - split; [constructor|]. intros q _ [].
  - intros q _. split; [intros []|]. intros [H|H]; discriminate H.
Qed.

Lemma promise_settled_at_most_once_witness :
  NoDup (settledPromises
           (run Samples.joinedPlatform
                [Call notDetermined 1; Call authorizedAlways 2; Changed denied;
                 Changed authorizedAlways; Call denied 3]
                manager0)).
Proof.
  apply promise_settled_at_most_once.
  cbn. repeat constructor; simpl; intuition discriminate.
Defined.

(** X6.  The module holds one promise only.  A call made while another is
    waiting for the prompt takes its place, and the displaced promise is
    never settled, whatever calls and callbacks follow. *)
Theorem displaced_promise_never_settles P (first second : nat) (m : Manager)
        (later : list Step) :
  available P 13 = true ->
  first <> second ->
  ~ In first (settledPromises m) ->
  ~ In first (calledPromises later) ->
  ~ In first
      (settledPromises
         (run P later
              (getCurrentWifiSSID P notDetermined second
                 (getCurrentWifiSSID P notDetermined first m)))).
Proof.
  intros Hav Hne Hs Hlater.
  apply (run_keeps_fresh P later); [|exact Hlater].
  unfold getCurrentWifiSSID. rewrite Hav. cbn. split; [exact Hs|].
  unfold held; cbn. intros [H|H]; inversion H; congruence.
Qed.

Lemma displaced_promise_never_settles_witness :
  available Samples.joinedPlatform 13 = true /\
  ~ In 1%nat
      (settledPromises
         (run Samples.joinedPlatform [Changed authorizedAlways; Changed denied]
              (getCurrentWifiSSID Samples.joinedPlatform notDetermined 2
                 (getCurrentWifiSSID Samples.joinedPlatform notDetermined 1 manager0)))).
Proof.
  split; [reflexivity|].
  apply (displaced_promise_never_settles Samples.joinedPlatform 1 2 manager0
           [Changed authorizedAlways; Changed denied]);
    [reflexivity | discriminate | intros [] | intros []].
Defined.

Example displaced_promise_run :
  settlements
    (run Samples.joinedPlatform [Changed authorizedAlways; Changed denied]
         (getCurrentWifiSSID Samples.joinedPlatform notDetermined 2
            (getCurrentWifiSSID Samples.joinedPlatform notDetermined 1 manager0)))
  = [(2%nat, ResolvedWith "IoT-Device-42")].
Proof. reflexivity. Qed.

End LocationFacts.

(** ** The native module: whole runs *)
Module NativeRuns.
Import Native Reading.

Lemma ticks_app (a b : list Event) : ticks (a ++ b) = (ticks a + ticks b)%nat.
Proof. unfold ticks. now rewrite filter_app, length_app. Qed.

Lemma waits_app (a b : list Event) : waits (a ++ b) = (waits a + waits b)%nat.
Proof. induction a as [|[] a IH]; simpl; auto. Qed.

Lemma waited_app (a b : list Event) : waited (a ++ b) = waited a + waited b.
Proof. induction a as [|[] a IH]; simpl; auto. lia. Qed.

(** The events of a verification: fetches separated by waits of the given
    interval, at most one fetch more than there are retries left. *)
Lemma verifyConnection_shape P e ip sp N i :
  forall (n : nat) (c : Z) (w : World),
    Z.to_nat (N - c) = n ->
    exists es,
      trace (snd (verifyConnection P e ip sp N i c w)) = (trace w ++ es)%list /\
      applied es = false /\
      fetches (snd (verifyConnection P e ip sp N i c w)) = (fetches w + ticks es)%nat /\
      (1 <= ticks es <= S n)%nat /\
      S (waits es) = ticks es /\
      waited es = i * Z.of_nat (waits es).
Proof.
  induction n as [|n IH]; intros c w Hn;
    rewrite NativeFacts.verifyConnection_unfold; cbv zeta;
    destruct (isConnected e ip sp (ssidAt P (fetches w)));
    try (exists [EvFetch (ssidAt P (fetches w))]; cbn; repeat split; lia);
    destruct (Z.geb_spec c N); try lia;
    try (exists [EvFetch (ssidAt P (fetches w))]; cbn; repeat split; lia).
  destruct (IH (c + 1) (emit (EvAsyncAfter i) (snd (fetchCurrentSSID P w))))
    as (es & He & Ha & Hf & Ht & Hw & Hwd); [lia|].
  exists (EvFetch (ssidAt P (fetches w)) :: EvAsyncAfter i :: es).
  rewrite He, Hf. unfold ticks in *. cbn. rewrite <- !app_assoc. cbn.
  repeat split; try lia; try assumption.
Qed.

(** A match is only ever declared on the identity of the last fetch, and a
    rejection only after every fetch of the run failed to match. *)
Lemma verifyConnection_verdict P e ip sp N i :
  forall (n : nat) (c : Z) (w : World),
    Z.to_nat (N - c) = n ->
    (forall j, (fetches w <= j < pred (fetches (snd (verifyConnection P e ip sp N i c w))))%nat ->
               isConnected e ip sp (ssidAt P j) = false) /\
    ((fst (verifyConnection P e ip sp N i c w) = Resolved /\
      isConnected e ip sp
        (ssidAt P (pred (fetches (snd (verifyConnection P e ip sp N i c w))))) = true) \/
     (fst (verifyConnection P e ip sp N i c w)
        = Rejected (rawValue unableToConnect) (timeoutMessage e sp) /\
      isConnected e ip sp
        (ssidAt P (pred (fetches (snd (verifyConnection P e ip sp N i c w))))) = false /\
      fetches (snd (verifyConnection P e ip sp N i c w)) = (fetches w + S n)%nat)).
Proof.
  induction n as [|n IH]; intros c w Hn;
    rewrite NativeFacts.verifyConnection_unfold; cbv zeta;
    destruct (isConnected e ip sp (ssidAt P (fetches w))) eqn:Hm;
    try (cbn; split; [intros j Hj; lia | left; split; [reflexivity | exact Hm]]);
    destruct (Z.geb_spec c N); try lia;
    try (cbn; split; [intros j Hj; lia
                     | right; split; [reflexivity | split; [exact Hm | lia]]]).
  destruct (IH (c + 1) (emit (EvAsyncAfter i) (snd (fetchCurrentSSID P w))))
    as [Hbefore Hlast]; [lia|].
  destruct (verifyConnection_shape P e ip sp N i n (c + 1)
              (emit (EvAsyncAfter i) (snd (fetchCurrentSSID P w)))) as (es & _ & _ & Hf & Ht & _);
    [lia|].
  rewrite NativeFacts.fetches_after_tick in *.
  split.
  - intros j Hj. destruct (Nat.eq_dec j (fetches w)) as [->|Hne]; [exact Hm|].
    apply Hbefore. lia.
  - destruct Hlast as [[Hr Hl]|[Hr [Hl Hc]]]; [left | right]; repeat split;
      try assumption. lia.
Qed.

(** X7.  The verdict of the verification: started with [maxRetries = N] it
    fetches between 1 and [N + 1] times; it resolves only if the identity of
    its last fetch matched, rejects only with [unableToConnect] after
    [N + 1] fetches, and in both cases no earlier fetch of the run matched. *)
Theorem verifyConnection_sound P e ip sp N i w :
  (fetches w < fetches (snd (verifyConnection P e ip sp N i 0 w))
             <= fetches w + Z.to_nat N + 1)%nat /\
  (forall j, (fetches w <= j < pred (fetches (snd (verifyConnection P e ip sp N i 0 w))))%nat ->
             isConnected e ip sp (ssidAt P j) = false) /\
  ((fst (verifyConnection P e ip sp N i 0 w) = Resolved /\
    isConnected e ip sp
      (ssidAt P (pred (fetches (snd (verifyConnection P e ip sp N i 0 w))))) = true) \/
   (fst (verifyConnection P e ip sp N i 0 w)
      = Rejected (rawValue unableToConnect) (timeoutMessage e sp) /\
    isConnected e ip sp
      (ssidAt P (pred (fetches (snd (verifyConnection P e ip sp N i 0 w))))) = false /\
    fetches (snd (verifyConnection P e ip sp N i 0 w)) = (fetches w + Z.to_nat N + 1)%nat)).
Proof.
  destruct (verifyConnection_shape P e ip sp N i (Z.to_nat N) 0 w)
    as (es & _ & _ & Hf & Ht & _); [f_equal; lia|].
  destruct (verifyConnection_verdict P e ip sp N i (Z.to_nat N) 0 w)
    as [Hbefore Hlast]; [f_equal; lia|].
  split; [lia|]. split; [exact Hbefore|].
  destruct Hlast as [H|[Hr [Hl Hc]]]; [left; exact H | right].
  repeat split; try assumption. lia.
Qed.

(** What [applyConfiguration] adds to the trace. *)
Lemma applyConfiguration_shape P config e ip sp w :
  exists es,
    trace (snd (applyConfiguration P config e ip sp w))
      = (trace w ++ EvApply config :: es)%list /\
    applied es = false /\
    fetches (snd (applyConfiguration P config e ip sp w)) = (fetches w + ticks es)%nat /\
    (ticks es <= 21)%nat /\
    0 <= waited es <= 10000.
Proof.
  unfold applyConfiguration; cbv zeta.
  destruct (applyOutcome P config) as [error|].
  - destruct (code error =? code_alreadyAssociated (codes P)); exists [];
      cbn; repeat split; lia.
  - destruct (verifyConnection_shape P e ip sp 20 500 (Z.to_nat (20 - 0)) 0
                (emit (EvApply config) w) eq_refl)
      as (es & He & Ha & Hf & Ht & Hw & Hwd).
    exists es. rewrite He, Hf. cbn. rewrite <- app_assoc. cbn.
    change (Z.to_nat (20 - 0)) with 20%nat in Ht.
    repeat split; try assumption; lia.
Qed.

(** X8.  One connect call is bounded: the exact variant fetches the identity
    at most 22 times (the pre-check and 21 ticks), the prefix variant at most
    21 times; either waits at most 10 seconds in all; and either calls
    [apply] at most once, with the configuration built from its own
    arguments. *)
Theorem connect_is_bounded P (name passphrase : string) (isWEP once : bool) (w : World) :
  (exists es,
      trace (snd (connectToProtectedSSIDOnce P name passphrase isWEP once w))
        = (trace w ++ es)%list /\
      (ticks es <= 22)%nat /\
      0 <= waited es <= 10000 /\
      (appliedConfigs es = [] \/
       appliedConfigs es = [configForSSID name passphrase isWEP once])) /\
  (exists es,
      trace (snd (connectToProtectedSSIDPrefixOnce P name passphrase isWEP once w))
        = (trace w ++ es)%list /\
      (ticks es <= 21)%nat /\
      0 <= waited es <= 10000 /\
      (appliedConfigs es = [] \/
       appliedConfigs es = [configForSSIDPrefix name passphrase isWEP once])) /\
  target (configForSSID name passphrase isWEP once) = ForSSID name /\
  joinOnce (configForSSID name passphrase isWEP once) = once /\
  target (configForSSIDPrefix name passphrase isWEP once) = ForSSIDPrefix name /\
  joinOnce (configForSSIDPrefix name passphrase isWEP once) = once.
Proof.
  split; [|split].
  - unfold connectToProtectedSSIDOnce.
    destruct (negb (available P 11)).
    + exists []. cbn. rewrite app_nil_r. repeat split; try lia. now left.
    + unfold fetchCurrentSSID.
      destruct (Str.opt_eqb (ssidAt P (fetches w)) name).
      * exists [EvFetch (ssidAt P (fetches w))]. cbn. repeat split; try lia. now left.
      * cbv zeta.
        match goal with |- context [applyConfiguration P ?c ?e ?ip ?sp ?w1] =>
          destruct (applyConfiguration_shape P c e ip sp w1) as (es & He & Ha & _ & Ht & Hw)
        end.
        exists (EvFetch (ssidAt P (fetches w))
                  :: EvApply (configForSSID name passphrase isWEP once) :: es).
        rewrite He. cbn. rewrite <- app_assoc. cbn.
        rewrite (NativeFacts.appliedConfigs_none es Ha).
        unfold ticks in *. cbn. repeat split; try lia. now right.
  - unfold connectToProtectedSSIDPrefixOnce.
    destruct (negb (available P 13)).
    + exists []. cbn. rewrite app_nil_r. repeat split; try lia. now left.
    + cbv zeta.
      match goal with |- context [applyConfiguration P ?c ?e ?ip ?sp ?w1] =>
        destruct (applyConfiguration_shape P c e ip sp w1) as (es & He & Ha & _ & Ht & Hw)
      end.
      exists (EvApply (configForSSIDPrefix name passphrase isWEP once) :: es).
      rewrite He. cbn. rewrite (NativeFacts.appliedConfigs_none es Ha).
      unfold ticks in *. cbn. repeat split; try lia. now right.
  - unfold configForSSID, configForSSIDPrefix.
    destruct (Str.isEmpty passphrase); repeat split.
Qed.

(** How [applyConfiguration] can end. *)
Lemma applyConfiguration_verdict P config e ip sp w :
  match fst (applyConfiguration P config e ip sp w) with
  | Resolved =>
      (exists error, applyOutcome P config = Some error /\
                     code error = code_alreadyAssociated (codes P)) \/
      (applyOutcome P config = None /\
       (fetches w < fetches (snd (applyConfiguration P config e ip sp w)))%nat /\
       isConnected e ip sp
         (ssidAt P (pred (fetches (snd (applyConfiguration P config e ip sp w))))) = true)
  | Rejected c msg =>
      (exists error, applyOutcome P config = Some error /\
                     code error <> code_alreadyAssociated (codes P) /\
                     c = parseError (codes P) error /\
                     msg = localizedDescription error) \/
      (applyOutcome P config = None /\
       c = rawValue unableToConnect /\ msg = timeoutMessage e sp)
  end.
Proof.
  unfold applyConfiguration; cbv zeta.
  destruct (applyOutcome P config) as [error|] eqn:Ho.
  - destruct (Z.eqb_spec (code error) (code_alreadyAssociated (codes P))); cbn.
    + left. now exists error.
    + left. now exists error.
  - destruct (verifyConnection_sound P e ip sp 20 500 (emit (EvApply config) w))
      as (Hrange & _ & [[Hr Hl]|[Hr _]]); rewrite Hr.
    + right. split; [reflexivity|]. split; [exact (proj1 Hrange) | exact Hl].
    + right. repeat split.
Qed.

(** X9.  What a resolved connect means.  The exact variant resolves only if
    the last identity it fetched was the requested SSID, or [apply] reported
    already-associated; the prefix variant only if the last identity fetched
    starts, without case, with the prefix, or [apply] reported
    already-associated. *)
Theorem connect_success_sound :
  (forall P ssid passphrase isWEP once w,
      fst (connectToProtectedSSIDOnce P ssid passphrase isWEP once w) = Resolved ->
      ((fetches w < fetches (snd (connectToProtectedSSIDOnce P ssid passphrase isWEP once w)))%nat /\
       ssidAt P (pred (fetches (snd (connectToProtectedSSIDOnce P ssid passphrase isWEP once w))))
         = Some ssid) \/
      (exists error,
          applyOutcome P (configForSSID ssid passphrase isWEP once) = Some error /\
          code error = code_alreadyAssociated (codes P))) /\
  (forall P ssidPrefix passphrase isWEP once w,
      fst (connectToProtectedSSIDPrefixOnce P ssidPrefix passphrase isWEP once w) = Resolved ->
      (exists seen,
          (fetches w
           < fetches (snd (connectToProtectedSSIDPrefixOnce P ssidPrefix passphrase isWEP once w)))%nat /\
          ssidAt P (pred (fetches (snd (connectToProtectedSSIDPrefixOnce
                                          P ssidPrefix passphrase isWEP once w))))
            = Some seen /\
          Str.starts_with_ci seen ssidPrefix) \/
      (exists error,
          applyOutcome P (configForSSIDPrefix ssidPrefix passphrase isWEP once) = Some error /\
          code error = code_alreadyAssociated (codes P))).
Proof.
  split.
  - intros P ssid passphrase isWEP once w.
    unfold connectToProtectedSSIDOnce.
    destruct (negb (available P 11)); [discriminate|].
    unfold fetchCurrentSSID.
    destruct (Str.opt_eqb (ssidAt P (fetches w)) ssid) eqn:Hpre.
    + intros _. left. cbn. split; [lia|]. now apply StrFacts.opt_eqb_iff.
    + cbv zeta. intros Hres.
      match goal with |- context [applyConfiguration P ?c ?e ?ip ?sp ?w1] =>
        pose proof (applyConfiguration_verdict P c e ip sp w1) as Hv
      end.
      rewrite Hres in Hv. destruct Hv as [Hassoc|(_ & Hlt & Hlast)]; [now right|].
      left. cbn in Hlt. split; [lia|].
      now apply NativeFacts.isConnected_exact in Hlast.
  - intros P ssidPrefix passphrase isWEP once w.
    unfold connectToProtectedSSIDPrefixOnce.
    destruct (negb (available P 13)); [discriminate|].
    cbv zeta. intros Hres.
    match goal with |- context [applyConfiguration P ?c ?e ?ip ?sp ?w1] =>
      pose proof (applyConfiguration_verdict P c e ip sp w1) as Hv
    end.
    rewrite Hres in Hv. destruct Hv as [Hassoc|(_ & Hlt & Hlast)]; [now right|].
    left. apply NativeFacts.isConnected_prefix in Hlast.
    destruct Hlast as (seen & Hseen & Hstart). exists seen. now repeat split.
Qed.

Lemma connect_success_sound_witness :
  ((fetches world0
    < fetches (snd (connectToProtectedSSIDOnce Samples.thirdTickPlatform
                      "IoT-Device-42" "" false true world0)))%nat /\
   ssidAt Samples.thirdTickPlatform
          (pred (fetches (snd (connectToProtectedSSIDOnce Samples.thirdTickPlatform
                                 "IoT-Device-42" "" false true world0))))
     = Some "IoT-Device-42") \/
  (exists error,
      applyOutcome Samples.thirdTickPlatform (configForSSID "IoT-Device-42" "" false true)
        = Some error /\
      code error = code_alreadyAssociated (codes Samples.thirdTickPlatform)).
Proof.
  apply (proj1 connect_success_sound Samples.thirdTickPlatform "IoT-Device-42" "" false true
               world0).
  vm_compute. reflexivity.
Defined.

(** *** Rejections *)

Ltac in_codes :=
  unfold connectCodes; cbn [List.map rawValue In];
  repeat (first [left; reflexivity | right]).

Ltac not_in_codes :=
  let H := fresh in
  unfold connectCodes; cbn [List.map rawValue In]; intros H;
  repeat (destruct H as [H|H]; [discriminate H|]); exact H.

Lemma parseError_in (K : HotspotCodes) (error : NSError) :
  In (parseError K error) connectCodes.
Proof.
  unfold parseError; cbv zeta.
  repeat match goal with
         | |- context [if ?b then _ else _] => destruct b
         end; in_codes.
Qed.

Lemma applyConfiguration_rejects P config e ip sp w c msg :
  fst (applyConfiguration P config e ip sp w) = Rejected c msg -> In c connectCodes.
Proof.
  intros H. pose proof (applyConfiguration_verdict P config e ip sp w) as Hv.
  rewrite H in Hv. destruct Hv as [(error & _ & _ & -> & _)|(_ & -> & _)].
  - apply parseError_in.
  - in_codes.
Qed.

Lemma connectToProtectedSSIDOnce_rejects P ssid passphrase isWEP once w c msg :
  fst (connectToProtectedSSIDOnce P ssid passphrase isWEP once w) = Rejected c msg ->
  In c connectCodes.
Proof.
  unfold connectToProtectedSSIDOnce.
  destruct (negb (available P 11)).
  - intros H; inversion H; in_codes.
  - unfold fetchCurrentSSID.
    destruct (Str.opt_eqb (ssidAt P (fetches w)) ssid); [discriminate|].
    apply applyConfiguration_rejects.
Qed.

Lemma connectToProtectedSSIDPrefixOnce_rejects P ssidPrefix passphrase isWEP once w c msg :
  fst (connectToProtectedSSIDPrefixOnce P ssidPrefix passphrase isWEP once w) = Rejected c msg ->
  In c connectCodes.
Proof.
  unfold connectToProtectedSSIDPrefixOnce.
  destruct (negb (available P 13)).
  - intros H; inversion H; in_codes.
  - apply applyConfiguration_rejects.
Qed.

(** X10.  Whatever connect variant is called and however the platform
    behaves, a rejection carries one of seven codes: unavailableForOSVersion,
    invalid, invalidSSID, invalidSSIDPrefix, invalidPassphrase, userDenied,
    unableToConnect.  In particular a verification that runs out is
    reported as unableToConnect, never as timeoutOccurred or
    didNotFindNetwork. *)
Theorem connect_rejection_codes P (w : World) (c msg : string) :
  (forall ssid, fst (connectToSSID P ssid w) = Rejected c msg -> In c connectCodes) /\
  (forall ssidPrefix,
      fst (connectToSSIDPrefix P ssidPrefix w) = Rejected c msg -> In c connectCodes) /\
  (forall ssidPrefix passphrase isWEP,
      fst (connectToProtectedSSIDPrefix P ssidPrefix passphrase isWEP w) = Rejected c msg ->
      In c connectCodes) /\
  (forall ssidPrefix passphrase isWEP once,
      fst (connectToProtectedSSIDPrefixOnce P ssidPrefix passphrase isWEP once w)
        = Rejected c msg ->
      In c connectCodes) /\
  (forall ssid passphrase isWEP isHidden,
      fst (connectToProtectedSSID P ssid passphrase isWEP isHidden w) = Rejected c msg ->
      In c connectCodes) /\
  (forall params,
      fst (connectToProtectedWifiSSID P params w) = Rejected c msg -> In c connectCodes) /\
  (forall ssid passphrase isWEP once,
      fst (connectToProtectedSSIDOnce P ssid passphrase isWEP once w) = Rejected c msg ->
      In c connectCodes) /\
  ~ In (rawValue timeout) connectCodes /\
  ~ In (rawValue didNotFindNetwork) connectCodes /\
  ~ In (rawValue couldNotDetectSSID) connectCodes.
Proof.
  split; [|split; [|split; [|split; [|split; [|split; [|split; [|split; [|split]]]]]]]].
  - intros ssid. unfold connectToSSID, connectToProtectedSSID.
    exact (connectToProtectedSSIDOnce_rejects P ssid "" false false w c msg).
  - intros ssidPrefix. unfold connectToSSIDPrefix.
    destruct (negb (available P 13)).
    + intros H; inversion H; in_codes.
    + apply applyConfiguration_rejects.
  - intros ssidPrefix passphrase isWEP. unfold connectToProtectedSSIDPrefix.
    exact (connectToProtectedSSIDPrefixOnce_rejects P ssidPrefix passphrase isWEP false w c msg).
  - intros ssidPrefix passphrase isWEP once.
    exact (connectToProtectedSSIDPrefixOnce_rejects P ssidPrefix passphrase isWEP once w c msg).
  - intros ssid passphrase isWEP isHidden. unfold connectToProtectedSSID.
    exact (connectToProtectedSSIDOnce_rejects P ssid passphrase isWEP false w c msg).
  - intros params. unfold connectToProtectedWifiSSID.
    destruct (param_ssid params) as [ssid|].
    + cbv zeta.
      exact (connectToProtectedSSIDOnce_rejects P ssid _ _ false w c msg).
    + intros H; inversion H; in_codes.
  - intros ssid passphrase isWEP once.
    exact (connectToProtectedSSIDOnce_rejects P ssid passphrase isWEP once w c msg).
  - not_in_codes.
  - not_in_codes.
  - not_in_codes.
Qed.

Lemma connect_rejection_codes_witness :
  In "unableToConnect" connectCodes.
Proof.
  apply (proj1 (connect_rejection_codes Samples.silentPlatform world0 "unableToConnect"
                  "Unable to connect to IoT-Device-42") "IoT-Device-42").
  vm_compute. reflexivity.
Defined.

(** *** The options dictionary *)

(** X11.  [connectToProtectedWifiSSID] with its keys missing: without
    [ssid] it rejects with [invalidSSID] and touches nothing, on any system
    version; without [password] it is [connectToSSID], whatever [isWEP]
    says; without [isWEP] it is the WPA call. *)
Theorem connectToProtectedWifiSSID_missing_keys P (w : World) :
  (forall password isWEP,
      connectToProtectedWifiSSID P
        {| param_ssid := None; param_password := password; param_isWEP := isWEP |} w
      = (Rejected "invalidSSID" "SSID is required", w)) /\
  (forall ssid isWEP,
      connectToProtectedWifiSSID P
        {| param_ssid := Some ssid; param_password := None; param_isWEP := isWEP |} w
      = connectToSSID P ssid w) /\
  (forall ssid password,
      connectToProtectedWifiSSID P
        {| param_ssid := Some ssid; param_password := Some password; param_isWEP := None |} w
      = connectToProtectedSSID P ssid password false false w).
Proof.
  split; [|split]; intros; reflexivity.
Qed.

(** *** Prefix matching *)

Lemma lower_ascii_idem (c : ascii) : Str.lower_ascii (Str.lower_ascii c) = Str.lower_ascii c.
Proof. destruct c as [[] [] [] [] [] [] [] []]; reflexivity. Qed.

Lemma lowercased_idem (s : string) : Str.lowercased (Str.lowercased s) = Str.lowercased s.
Proof.
  induction s as [|c s IH]; [reflexivity|]. simpl. now rewrite lower_ascii_idem, IH.
Qed.

Lemma append_empty_r (s : string) : s ++ "" = s.
Proof. induction s as [|c s IH]; [reflexivity|]. simpl. now rewrite IH. Qed.

(** X12.  Prefix mode at its edges: the empty prefix matches every identity
    that is present; an identity matches itself; the decision does not
    depend on the case of either side; and whatever exact mode accepts,
    prefix mode accepts too. *)
Theorem prefix_mode_edges (e : option string) :
  (forall seen, isConnected e true (Some "") (Some seen) = true) /\
  (forall seen, isConnected e true (Some seen) (Some seen) = true) /\
  (forall prefix seen,
      isConnected e true (Some prefix) (Some seen)
      = isConnected e true (Some (Str.lowercased prefix)) (Some (Str.lowercased seen))) /\
  (forall target sp seen,
      isConnected (Some target) false sp seen = true ->
      isConnected e true (Some target) seen = true).
Proof.
  repeat split.
  - intros seen. unfold isConnected; cbn. unfold Str.hasPrefix.
    now destruct (Str.lowercased seen).
  - intros seen. unfold isConnected; cbn. apply StrFacts.hasPrefix_iff.
    exists "". now rewrite append_empty_r.
  - intros prefix seen. unfold isConnected; cbn. now rewrite !lowercased_idem.
  - intros target sp seen H. apply NativeFacts.isConnected_exact in H. subst seen.
    unfold isConnected; cbn. apply StrFacts.hasPrefix_iff.
    exists "". now rewrite append_empty_r.
Qed.

Lemma prefix_mode_edges_witness :
  isConnected None true (Some "IoT-Device-42") (Some "IoT-Device-42") = true.
Proof.
  apply (proj2 (proj2 (proj2 (prefix_mode_edges None))) "IoT-Device-42" None).
  reflexivity.
Defined.

(** *** The two layers *)



End NativeRuns.

(** ** The JavaScript wrapper: whole calls *)
Module JsRuns.
Import Js Reading JsFacts.

(** The calls added to the log, given as a suffix of it. *)
Ltac new_calls :=
  first [ exists []; split; [now rewrite app_nil_r|]
        | rewrite <- ?app_assoc; eexists; split; [reflexivity|] ].

(** X14.  On a platform other than Android neither revision ever asks the
    native side to bind or unbind traffic, in connect or in disconnect; and
    the older revision leaves [isIoTNetworkBound] as it found it. *)
Theorem no_binding_outside_android (B : Bridge) (ssid : string) (password : option string)
        (options : IoTOptions) (s : State) :
  isAndroid (OS B) = false ->
  (exists cs, calls (snd (IndexTs.connectToIoTNetwork B ssid password options s))
              = (calls s ++ cs)%list /\ existsb isForceCall cs = false) /\
  (exists cs, calls (snd (IndexRev.connectToIoTNetwork B ssid password options s))
              = (calls s ++ cs)%list /\ existsb isForceCall cs = false) /\
  (exists cs, calls (snd (IndexTs.disconnectFromIoTNetwork B s))
              = (calls s ++ cs)%list /\ existsb isForceCall cs = false) /\
  (exists cs, calls (snd (IndexRev.disconnectFromIoTNetwork B s))
              = (calls s ++ cs)%list /\ existsb isForceCall cs = false) /\
  isIoTNetworkBound (snd (IndexTs.connectToIoTNetwork B ssid password options s))
    = isIoTNetworkBound s /\
  isIoTNetworkBound (snd (IndexTs.disconnectFromIoTNetwork B s)) = isIoTNetworkBound s.
Proof.
  intros Hos.
  repeat match goal with |- _ /\ _ => split end;
    js_unfold; rewrite Hos; cbn;
    repeat js_case; try new_calls; reflexivity.
Qed.

Lemma no_binding_outside_android_witness :
  isIoTNetworkBound (snd (IndexTs.disconnectFromIoTNetwork Samples.elsewhere
                            {| isIoTNetworkBound := true; calls := [] |})) = true.
Proof.
  exact (proj2 (proj2 (proj2 (proj2 (proj2
           (no_binding_outside_android Samples.elsewhere "IoT" None Samples.noOptions
              {| isIoTNetworkBound := true; calls := [] |} eq_refl)))))).
Defined.

(** X15.  When the native connect call is rejected, [connectToIoTNetwork]
    rejects with that very reason, in both revisions and on every platform:
    it neither binds traffic nor reads the SSID, and the flag keeps its
    value. *)
Theorem connect_rejection_is_passed_on (B : Bridge) (ssid : string)
        (password : option string) (options : IoTOptions) (s : State) (reason : string) :
  (forall n c, isConnectCall c = true -> answer B n c = Reject reason) ->
  (fst (IndexTs.connectToIoTNetwork B ssid password options s)
     = Throw (NativeRejection reason) /\
   isIoTNetworkBound (snd (IndexTs.connectToIoTNetwork B ssid password options s))
     = isIoTNetworkBound s /\
   exists cs, calls (snd (IndexTs.connectToIoTNetwork B ssid password options s))
              = (calls s ++ cs)%list /\
              existsb isForceCall cs = false /\ ~ In getCurrentWifiSSID cs) /\
  (fst (IndexRev.connectToIoTNetwork B ssid password options s)
     = Throw (NativeRejection reason) /\
   isIoTNetworkBound (snd (IndexRev.connectToIoTNetwork B ssid password options s))
     = isIoTNetworkBound s /\
   exists cs, calls (snd (IndexRev.connectToIoTNetwork B ssid password options s))
              = (calls s ++ cs)%list /\
              existsb isForceCall cs = false /\ ~ In getCurrentWifiSSID cs).
Proof.
  intros Hrej.
  split; js_unfold; cbn;
    repeat (first [ rewrite Hrej by reflexivity; cbn
                  | match goal with
                    | |- context [match answer ?B ?n (isRemoveWifiNetwork ?x) with _ => _ end] =>
                        destruct (answer B n (isRemoveWifiNetwork x)); cbn
                    | |- context [if ?b then _ else _] => destruct b eqn:?; cbn
                    end ]);
    (split; [reflexivity|]); (split; [reflexivity|]);
    new_calls; (split; [reflexivity|]);
    cbn; intros H; repeat (destruct H as [H|H]; [discriminate H|]); exact H.
Qed.

Lemma connect_rejection_is_passed_on_witness :
  fst (IndexRev.connectToIoTNetwork (Samples.allRejected ios) "IoT-Device-42" None
         Samples.noOptions state0)
  = Throw (NativeRejection "failed").
Proof.
  exact (proj1 (proj2 (connect_rejection_is_passed_on (Samples.allRejected ios)
                         "IoT-Device-42" None Samples.noOptions state0 "failed"
                         (fun _ _ _ => eq_refl)))).
Defined.

Local Arguments Js.connected : simpl never.

(** X16.  A fulfilled [connectToIoTNetwork] has passed the final check: the
    native side answered [getCurrentWifiSSID] with an identity that the
    check accepts (in exact mode, the requested SSID itself). *)
Theorem connect_fulfilled_means_checked (B : Bridge) (ssid : string)
        (password : option string) (options : IoTOptions) (s : State) :
  (fst (IndexTs.connectToIoTNetwork B ssid password options s) = Normal tt ->
   exists n seen,
     answer B n getCurrentWifiSSID = Fulfil seen /\
     connected (Str.orElse (usePrefix options) false) ssid seen = true) /\
  (fst (IndexRev.connectToIoTNetwork B ssid password options s) = Normal tt ->
   exists n seen,
     answer B n getCurrentWifiSSID = Fulfil seen /\
     connected (Str.orElse (usePrefix options) false) ssid seen = true) /\
  (forall seen, connected false ssid seen = true -> seen = Some ssid).
Proof.
  split; [|split].
  - js_unfold. cbn. repeat js_case; intros H; try discriminate H;
      match goal with
      | Ha : answer B ?n getCurrentWifiSSID = Fulfil ?v,
        Hc : negb (connected _ _ ?v) = false |- _ =>
          exists n, v; split; [exact Ha | now apply negb_false_iff in Hc]
      end.
  - js_unfold. cbn. repeat js_case; intros H; try discriminate H;
      match goal with
      | Ha : answer B ?n getCurrentWifiSSID = Fulfil ?v,
        Hc : negb (connected _ _ ?v) = false |- _ =>
          exists n, v; split; [exact Ha | now apply negb_false_iff in Hc]
      end.
  - intros seen H. now apply StrFacts.opt_eqb_iff.
Qed.

Lemma connect_fulfilled_means_checked_witness :
  exists n seen,
    answer Samples.elsewhere n getCurrentWifiSSID = Fulfil seen /\
    connected (Str.orElse (usePrefix Samples.prefixOptions) false) "IoT" seen = true.
Proof.
  apply (proj1 (proj2 (connect_fulfilled_means_checked Samples.elsewhere "IoT" None
                         Samples.prefixOptions state0))).
  reflexivity.
Defined.



(** With the flag clear, the later revision's disconnect does not unbind. *)
Lemma IndexRev_disconnect_unbound (B : Bridge) (s : State) :
  isIoTNetworkBound s = false ->
  exists cs, calls (snd (IndexRev.disconnectFromIoTNetwork B s)) = (calls s ++ cs)%list /\
             existsb isForceCall cs = false.
Proof.
  intros Hb. js_unfold. cbn. destruct (isAndroid (OS B)); cbn; rewrite ?Hb; cbn;
    repeat js_case; new_calls; reflexivity.
Qed.

(** X18.  The later revision's disconnect settles the binding for good: it
    leaves the flag clear whatever the native calls answer, and a
    disconnect that follows it never calls the unbind again. *)
Theorem IndexRev_disconnect_settles (B : Bridge) (s : State) :
  isIoTNetworkBound (snd (IndexRev.disconnectFromIoTNetwork B s)) = false /\
  exists cs,
    calls (snd (IndexRev.disconnectFromIoTNetwork B
                  (snd (IndexRev.disconnectFromIoTNetwork B s))))
    = (calls (snd (IndexRev.disconnectFromIoTNetwork B s)) ++ cs)%list /\
    existsb isForceCall cs = false.
Proof.
  split; [apply IndexRev_disconnect_unbinds|].
  apply IndexRev_disconnect_unbound, IndexRev_disconnect_unbinds.
Qed.

(** X19.  The older revision's disconnect clears the flag only through a
    successful unbind on Android: the flag afterwards is the flag before,
    cleared exactly when the platform is Android and the unbind call was
    fulfilled; and while the flag is set on Android, disconnect starts with
    the unbind call, so a failed unbind is tried again by the next
    disconnect. *)
Theorem IndexTs_disconnect_flag (B : Bridge) (s : State) :
  isIoTNetworkBound (snd (IndexTs.disconnectFromIoTNetwork B s))
  = (isIoTNetworkBound s &&
     negb (isAndroid (OS B) &&
           fulfilled (answer B (List.length (calls s))
                             (forceWifiUsageWithOptions false false))))%bool /\
  (isAndroid (OS B) = true -> isIoTNetworkBound s = true ->
   exists cs, calls (snd (IndexTs.disconnectFromIoTNetwork B s))
              = (calls s ++ forceWifiUsageWithOptions false false :: cs)%list).
Proof.
  split.
  - js_unfold. cbn.
    destruct (isAndroid (OS B)); destruct (isIoTNetworkBound s) eqn:Hb; cbn;
      repeat js_case; rewrite ?Hb; reflexivity.
  - intros Hos Hb. js_unfold. cbn. rewrite Hos, Hb. cbn.
    repeat js_case; rewrite <- ?app_assoc; eexists; reflexivity.
Qed.

Lemma IndexTs_disconnect_flag_witness :
  exists cs,
    calls (snd (IndexTs.disconnectFromIoTNetwork Samples.unbindFails
                  {| isIoTNetworkBound := true; calls := [] |}))
    = ([] ++ forceWifiUsageWithOptions false false :: cs)%list.
Proof.
  exact (proj2 (IndexTs_disconnect_flag Samples.unbindFails
                  {| isIoTNetworkBound := true; calls := [] |}) eq_refl eq_refl).
Defined.

Ltac rejected_call :=
  match goal with
  | Ha : answer ?B ?n ?c = Reject ?r |- exists n' c' reason, NativeRejection ?r = _ /\ _ =>
      exists n, c, r; split; [reflexivity|]; split; [exact Ha|];
      first [left; reflexivity | right; reflexivity]
  end.

(** X20.  How [connectToIoTNetwork] can fail.  It throws either the error of
    the final check, built from the SSID that was read and rejected by the
    check (and, in the later revision, with the flag cleared), or the
    rejection of the native connect call or of [getCurrentWifiSSID],
    untouched.  A rejected bind, unbind or removal is never thrown. *)
Theorem connect_failures (B : Bridge) (ssid : string) (password : option string)
        (options : IoTOptions) (s : State) (t : Thrown) :
  (fst (IndexTs.connectToIoTNetwork B ssid password options s) = Throw t ->
   (exists seen,
       t = JsError (failureMessage ssid seen) /\
       connected (Str.orElse (usePrefix options) false) ssid seen = false) \/
   (exists n c reason,
       t = NativeRejection reason /\ answer B n c = Reject reason /\
       (isConnectCall c = true \/ c = getCurrentWifiSSID))) /\
  (fst (IndexRev.connectToIoTNetwork B ssid password options s) = Throw t ->
   (exists seen,
       t = JsError (failureMessage ssid seen) /\
       connected (Str.orElse (usePrefix options) false) ssid seen = false /\
       isIoTNetworkBound (snd (IndexRev.connectToIoTNetwork B ssid password options s))
         = false) \/
   (exists n c reason,
       t = NativeRejection reason /\ answer B n c = Reject reason /\
       (isConnectCall c = true \/ c = getCurrentWifiSSID))).
Proof.
  split; js_unfold; cbn; repeat js_case; intros H; try discriminate H;
    inversion H; subst t;
    first [ right; rejected_call
          | left;
            match goal with
            | Hc : negb (connected _ _ ?v) = true |- _ =>
                exists v; apply negb_true_iff in Hc; repeat split; assumption
            end ].
Qed.

Lemma connect_failures_witness :
  (exists seen,
      JsError "Failed to connect to IoT network. Expected: IoT-Device-42, Got: HomeWifi"
        = JsError (failureMessage "IoT-Device-42" seen) /\
      connected (Str.orElse (usePrefix Samples.noOptions) false) "IoT-Device-42" seen = false /\
      isIoTNetworkBound (snd (IndexRev.connectToIoTNetwork Samples.unbindFails
                                "IoT-Device-42" None Samples.noOptions state0)) = false) \/
  (exists n c reason,
      JsError "Failed to connect to IoT network. Expected: IoT-Device-42, Got: HomeWifi"
        = NativeRejection reason /\
      answer Samples.unbindFails n c = Reject reason /\
      (isConnectCall c = true \/ c = getCurrentWifiSSID)).
Proof.
  apply (proj2 (connect_failures Samples.unbindFails "IoT-Device-42" None Samples.noOptions
                  state0
                  (JsError
                     "Failed to connect to IoT network. Expected: IoT-Device-42, Got: HomeWifi"))).
  reflexivity.
Defined.

End JsRuns.
